(** * Plant Village Orange: dataset scripts

    A shallow embedding of the three batch scripts of the repository
    ([scripts/reorganize_dataset.py], [scripts/fix_splits.py] and
    [scripts/convert_to_coco.py]) and the properties their specification
    states about them.

    Conventions of the embedding:
    - a Python [str] is a Rocq [string], i.e. a string of bytes (the UTF-8
      encoding of the text).  [str.lower], [str.strip] and [str.splitlines]
      act on the ASCII range; bytes above 127 are left alone;
    - a [pathlib.Path] is the string of its POSIX spelling, [p / q] is
      [p +:+ "/" +:+ q];
    - a Python [dict] is an association list in insertion order
      (assignment to a present key keeps the key's position);
    - the file system is a finite map from the paths that exist to a file
      with its content or to a directory;
    - code that can raise returns a [result]. *)

From Stdlib Require Import ZArith Ascii String List.
From stdpp Require Import gmap strings list sorting pretty.

Local Open Scope string_scope.
Local Open Scope Z_scope.

(** ** Python strings *)

Module Py.

Definition is_upper (c : ascii) : bool :=
  let n := nat_of_ascii c in (65 <=? n)%nat && (n <=? 90)%nat.

(** [str.lower] on one character. *)
Definition lower_char (c : ascii) : ascii :=
  if is_upper c then ascii_of_nat (nat_of_ascii c + 32) else c.

(** [s.lower()] *)
Fixpoint lower (s : string) : string :=
  match s with
  | EmptyString => EmptyString
  | String c s' => String (lower_char c) (lower s')
  end.

(** [c.isspace()]: tab, line feed, vertical tab, form feed, carriage
    return, the four separators 28..31 and the blank. *)
Definition isspace (c : ascii) : bool :=
  let n := nat_of_ascii c in
  ((9 <=? n)%nat && (n <=? 13)%nat) || ((28 <=? n)%nat && (n <=? 32)%nat).

Fixpoint lstrip (s : string) : string :=
  match s with
  | EmptyString => EmptyString
  | String c s' => if isspace c then lstrip s' else s
  end.

(** [s.rstrip()]: a character is dropped when it is white space and
    everything after it has been dropped. *)
Fixpoint rstrip (s : string) : string :=
  match s with
  | EmptyString => EmptyString
  | String c s' =>
      match rstrip s' with
      | EmptyString => if isspace c then EmptyString else String c EmptyString
      | r => String c r
      end
  end.

(** [s.strip()] *)
Definition strip (s : string) : string := rstrip (lstrip s).

(** [s.startswith(p)] *)
Fixpoint startswith (p s : string) : bool :=
  match p, s with
  | EmptyString, _ => true
  | String a p', String b s' => if Ascii.eqb a b then startswith p' s' else false
  | String _ _, EmptyString => false
  end.

(** [sub in s] *)
Fixpoint contains (sub s : string) : bool :=
  startswith sub s ||
  match s with
  | EmptyString => false
  | String _ s' => contains sub s'
  end.

(** [sub] occurs in [s]: what [sub in s] decides. *)
Definition occurs_in (sub s : string) : Prop :=
  ∃ pre post, s = pre +:+ sub +:+ post.

(** [s.endswith(p)]: [p] is [s] or ends what follows the first
    character of [s]. *)
Fixpoint endswith (p s : string) : bool :=
  String.eqb p s ||
  match s with
  | EmptyString => false
  | String _ s' => endswith p s'
  end.

(** [s[:-1]] *)
Fixpoint drop_last (s : string) : string :=
  match s with
  | EmptyString => EmptyString
  | String c EmptyString => EmptyString
  | String c s' => String c (drop_last s')
  end.

(** [s.split(c)] for a one-character separator. *)
Fixpoint split_on (c : ascii) (s : string) : list string :=
  match s with
  | EmptyString => [EmptyString]
  | String a s' =>
      if Ascii.eqb a c then EmptyString :: split_on c s'
      else match split_on c s' with
           | [] => [String a EmptyString]
           | f :: fs => String a f :: fs
           end
  end.

(** [s.rfind(c)], [None] standing for [-1]. *)
Fixpoint rfind (c : ascii) (s : string) : option nat :=
  match s with
  | EmptyString => None
  | String a s' =>
      match rfind c s' with
      | Some i => Some (S i)
      | None => if Ascii.eqb a c then Some 0%nat else None
      end
  end.

(** [s[:n]] *)
Fixpoint take (n : nat) (s : string) : string :=
  match n, s with
  | O, _ => EmptyString
  | S n', String a s' => String a (take n' s')
  | S _, EmptyString => EmptyString
  end.

(** Concatenation of the lines written one after the other to a file,
    each with its line feed: [for l in ls: f.write(f"{l}\n")]. *)
Definition nl : string := String (ascii_of_nat 10) EmptyString.

Definition write_lines (ls : list string) : string :=
  foldr (fun l acc => l +:+ nl +:+ acc) EmptyString ls.

(** Characters at which a text file opened with universal newlines ends a
    line: line feed and carriage return. *)
Definition is_newline (c : ascii) : bool :=
  let n := nat_of_ascii c in (n =? 10)%nat || (n =? 13)%nat.

(** Boundaries of [str.splitlines]: the two above, vertical tab, form
    feed and the separators 28, 29, 30. *)
Definition is_linebreak (c : ascii) : bool :=
  let n := nat_of_ascii c in
  ((10 <=? n)%nat && (n <=? 13)%nat) || ((28 <=? n)%nat && (n <=? 30)%nat).

(** Pieces of [s] between the characters that satisfy [brk]. *)
Fixpoint pieces (brk : ascii -> bool) (s : string) : list string :=
  match s with
  | EmptyString => [EmptyString]
  | String a s' =>
      if brk a then EmptyString :: pieces brk s'
      else match pieces brk s' with
           | [] => [String a EmptyString]
           | f :: fs => String a f :: fs
           end
  end.

Definition nonempty (s : string) : bool :=
  match s with EmptyString => false | _ => true end.

(** [[line.strip() for line in f if line.strip()]] for a text file [f]
    with content [text].  A carriage return followed by a line feed gives
    one extra empty piece, which the filter removes like any blank line. *)
Definition stripped_lines (text : string) : list string :=
  filter (fun l => nonempty l = true) (map strip (pieces is_newline text)).

(** [[l.strip() for l in text.splitlines()]] filtered on non-empty lines. *)
Definition stripped_splitlines (text : string) : list string :=
  filter (fun l => nonempty l = true) (map strip (pieces is_linebreak text)).

End Py.

(** ** Paths *)

Module Path.

(** [p / q] *)
Definition join (p q : string) : string := p +:+ "/" +:+ q.

(** Components of a path: empty components and [.] are dropped. *)
Definition parts (p : string) : list string :=
  filter (fun c => c <> "" /\ c <> ".") (Py.split_on "/" p).

(** [Path(p).name] *)
Definition name (p : string) : string := List.last (parts p) "".

(** Stem of a file name: the name without its last suffix; a leading or
    a trailing dot starts no suffix. *)
Definition stem_of_name (n : string) : string :=
  match Py.rfind "." n with
  | Some i =>
      if (0 <? i)%nat && (S i <? String.length n)%nat then Py.take i n else n
  | None => n
  end.

(** [Path(p).stem] *)
Definition stem (p : string) : string := stem_of_name (name p).

(** [p.relative_to(root.parent)] for a path [p] under [root]. *)
Definition relative_to_parent (root p : string) : string :=
  name root +:+ String.substring (String.length root)
                                 (String.length p - String.length root) p.

End Path.

Infix "//" := Path.join (at level 40, left associativity).

(** ** Python dictionaries, in insertion order *)

Module Dict.

Section Dict.
Context {V : Type}.

Definition t := list (string * V).

(** [d[k]] ([None] for a [KeyError]) and [k in d]. *)
Fixpoint get (d : t) (k : string) : option V :=
  match d with
  | [] => None
  | (k', v) :: d' => if String.eqb k' k then Some v else get d' k
  end.

Definition mem (d : t) (k : string) : bool :=
  match get d k with Some _ => true | None => false end.

(** [d[k] = v] *)
Fixpoint set (d : t) (k : string) (v : V) : t :=
  match d with
  | [] => [(k, v)]
  | (k', v') :: d' =>
      if String.eqb k' k then (k', v) :: d' else (k', v') :: set d' k v
  end.

(** [dict(items)] *)
Definition of_items (items : list (string * V)) : t :=
  fold_left (fun d '(k, v) => set d k v) items [].
End Dict.

Arguments t : clear implicits.

End Dict.

(** ** Exceptions *)

Inductive exn : Type :=
  | FileNotFoundError
  | IsADirectoryError
  | FileExistsError
  | JSONDecodeError
  | KeyError
  | IndexError
  | AttributeError
  | UnidentifiedImageError.

Inductive result (A : Type) : Type :=
  | Ok (a : A)
  | Raise (e : exn).

Arguments Ok {A} a.
Arguments Raise {A} e.

Definition bind {A B : Type} (r : result A) (k : A -> result B) : result B :=
  match r with
  | Ok a => k a
  | Raise e => Raise e
  end.

Global Instance result_ret : MRet result := fun _ a => Ok a.
Global Instance result_bind : MBind result := fun _ _ k r => bind r k.

(** ** The file system *)

Module FS.

Inductive node : Type :=
  | File (content : string)
  | Dir.

(** A file system maps the paths that exist to what is there. *)
Abbreviation t := (gmap string node).

(** [p.exists()] *)
Definition exists_ (fs : t) (p : string) : bool :=
  match fs !! p with Some _ => true | None => false end.

(** [open(p).read()] *)
Definition read (fs : t) (p : string) : result string :=
  match fs !! p with
  | Some (File c) => Ok c
  | Some Dir => Raise IsADirectoryError
  | None => Raise FileNotFoundError
  end.

(** [open(p, 'w')] followed by writing [c]: the file is created or
    truncated.  Every write of the scripts follows a [mkdir] of the parent
    directory, whose existence is not tested again here. *)
Definition write (fs : t) (p c : string) : result t :=
  match fs !! p with
  | Some Dir => Raise IsADirectoryError
  | _ => Ok (<[p := File c]> fs)
  end.

(** [p.mkdir(parents=True, exist_ok=True)]; only the directory itself is
    recorded, the scripts never test its ancestors. *)
Definition mkdir (fs : t) (p : string) : result t :=
  match fs !! p with
  | Some (File _) => Raise FileExistsError
  | _ => Ok (<[p := Dir]> fs)
  end.

(** [shutil.copy2(src, dst)] for a destination that is a file path. *)
Definition copy2 (fs : t) (src dst : string) : result t :=
  c ← read fs src; write fs dst c.

(** The names of the entries of directory [d]: the paths [d/n] of the
    file system with no further separator in [n]. *)
Definition entry_name (d p : string) : option string :=
  let pre := d +:+ "/" in
  if Py.startswith pre p then
    let n := String.substring (String.length pre) (String.length p - String.length pre) p in
    if Py.nonempty n && negb (Py.contains "/" n) then Some n else None
  else None.

(** [d.glob("*" + suffix)]: the entries of [d] whose name ends in
    [suffix], as paths, in the order the directory is listed. *)
Definition glob (fs : t) (d suffix : string) : list string :=
  omap (fun '(p, _) =>
          match entry_name d p with
          | Some n => if Py.endswith suffix n then Some p else None
          | None => None
          end) (map_to_list fs).

End FS.

(** ** [scripts/fix_splits.py] *)

Module FixSplits.

(** The keys tried in the mapping, in order:
    [[line, line_stem, line_lower, line_stem_lower]]. *)
Definition exact_keys (line : string) : list string :=
  let line_stem := Path.stem line in
  [line; line_stem; Py.lower line; Py.lower line_stem].

(** [for key in keys: if key in mapping: ... mapping[key]; break] *)
Fixpoint lookup_first (mapping : Dict.t string) (keys : list string) : option string :=
  match keys with
  | [] => None
  | key :: keys' =>
      match Dict.get mapping key with
      | Some actual => Some actual
      | None => lookup_first mapping keys'
      end
  end.

(** [Path(orig).stem if '.' in orig else orig] *)
Definition orig_stem (orig : string) : string :=
  if Py.contains "." orig then Path.stem orig else orig.


(** The scan of [mapping.items()] on a miss of the four keys. *)
Fixpoint scan (items : Dict.t string) (line_stem line_stem_lower : string) : option string :=
  match items with
  | [] => None
  | (orig, actual) :: items' =>
      if String.eqb (orig_stem orig) line_stem || String.eqb (orig_stem orig) line_stem_lower
      then Some actual
      else scan items' line_stem line_stem_lower
  end.

(** What one line of a split file is mapped to; [None] when [found] is
    still false after both loops. *)
Definition resolve (mapping : Dict.t string) (line : string) : option string :=
  match lookup_first mapping (exact_keys line) with
  | Some actual => Some actual
  | None => scan mapping (Path.stem line) (Py.lower (Path.stem line))
  end.

(** The loop over [original_lines]: the pair [(mapped_lines, unmapped)]. *)
Definition map_lines (mapping : Dict.t string) (original_lines : list string)
  : list string * list string :=
  fold_left (fun '(mapped_lines, unmapped) line =>
               match resolve mapping line with
               | Some actual => ((mapped_lines ++ [actual])%list, unmapped)
               | None => (mapped_lines, (unmapped ++ [line])%list)
               end)
            original_lines ([], []).

(** [sorted(set(l))] *)
Definition sorted_set (l : list string) : list string :=
  merge_sort String.le (elements (list_to_set l : gset string)).

(** The text written to [sets/<split>.txt] for a split file with content
    [text]. *)
Definition split_output (mapping : Dict.t string) (text : string) : string :=
  Py.write_lines (sorted_set (fst (map_lines mapping (Py.stripped_lines text)))).

(** The lines reported as unmapped: [unmapped[:10]]. *)
Definition reported (mapping : Dict.t string) (text : string) : list string :=
  firstn 10 (snd (map_lines mapping (Py.stripped_lines text))).

(** One round of the loop over the split files. *)
Definition fix_split_file (mapping : Dict.t string) (category_path all_path : string)
    (fs : FS.t) (split_file : string) : result FS.t :=
  let split_path := all_path // split_file in
  if negb (FS.exists_ fs split_path) then Ok fs
  else
    text ← FS.read fs split_path;
    let sets_dir := category_path // "sets" in
    fs1 ← FS.mkdir fs sets_dir;
    FS.write fs1 (sets_dir // split_file) (split_output mapping text).

Definition split_files : list string := ["train.txt"; "val.txt"; "test.txt"].

(** [fix_splits(category_dir, all_dir)], for the [mapping] that
    [build_filename_mapping] returned. *)
Definition fix_splits (mapping : Dict.t string) (category_path all_path : string)
    (fs : FS.t) : result FS.t :=
  fold_left (fun r split_file => fs' ← r; fix_split_file mapping category_path all_path fs' split_file)
            split_files (Ok fs).

End FixSplits.

(** ** [scripts/reorganize_dataset.py]: the split files *)

Module ReorganizeSplits.

(** The test of line 125. *)
Definition is_orange (line : string) : bool :=
  Py.contains "CREC_HLB" line || Py.contains "UF.Citrus_HLB" line
  || Py.contains "image (" line.

(** [category_lines[k].append(v)] on a [defaultdict(list)]. *)
Definition append_to (category_lines : Dict.t (list string)) (k v : string)
  : Dict.t (list string) :=
  Dict.set category_lines k (default [] (Dict.get category_lines k) ++ [v])%list.


(** [category_lines[k]] without inserting: the list under [k], empty
    when [k] is not a key. *)
Definition lines_of (category_lines : Dict.t (list string)) (k : string) : list string :=
  default [] (Dict.get category_lines k).

(** The body of the loop over [lines]. *)
Definition group_line (category_lines : Dict.t (list string)) (line : string)
  : Dict.t (list string) :=
  if is_orange line then
    let stem := Path.stem line in
    append_to category_lines "oranges" stem
  else
    let stem := Path.stem line in
    append_to category_lines "backgrounds" stem.

(** The loop over [lines], from an empty [defaultdict]. *)
Definition group_lines (lines : list string) : Dict.t (list string) :=
  fold_left group_line lines [].

(** The loop over [category_dirs.items()] for one split file. *)
Definition write_category_splits (category_lines : Dict.t (list string))
    (split_file : string) (category_dirs : Dict.t string) (fs : FS.t) : result FS.t :=
  fold_left (fun r '(category_name, category_dir) =>
               fs' ← r;
               match Dict.get category_lines category_name with
               | Some ls =>
                   let sets_dir := category_dir // "sets" in
                   fs1 ← FS.mkdir fs' sets_dir;
                   FS.write fs1 (sets_dir // split_file) (Py.write_lines ls)
               | None => Ok fs'
               end)
            category_dirs (Ok fs).

(** [reorganize_splits(all_dir, category_dirs)] *)
Definition reorganize_splits (all_path : string) (category_dirs : Dict.t string)
    (fs : FS.t) : result FS.t :=
  fold_left (fun r split_file =>
               fs' ← r;
               let split_path := all_path // split_file in
               if negb (FS.exists_ fs' split_path) then Ok fs'
               else
                 text ← FS.read fs' split_path;
                 write_category_splits (group_lines (Py.stripped_lines text))
                                       split_file category_dirs fs')
            ["train.txt"; "val.txt"; "test.txt"] (Ok fs).

End ReorganizeSplits.

(** ** Numbers

    The numbers of an annotation are Python numbers: what [json.load]
    returns for a JSON number and what [float] builds from a CSV field.
    The scripts only format them, parse them and multiply them; these
    three operations of the interpreter are the interface below. *)

Class PyNumber (F : Type) : Type := {
  (** [float(s)]; [None] when it raises [ValueError] *)
  float_of_str : string -> option F;
  (** [f"{v}"] *)
  str_of_number : F -> string;
  (** [v * w] *)
  number_mul : F -> F -> F
}.

(** ** [csv.reader] and [csv.DictReader]

    The reader is the one of files without quote characters, as the
    Reorganizer writes them: a record per line, fields separated by commas.
    What [csv.DictReader] does with the records is the library's. *)

Module Csv.

Definition is_lf (c : ascii) : bool := (nat_of_ascii c =? 10)%nat.
Definition is_cr (c : ascii) : bool := (nat_of_ascii c =? 13)%nat.

(** The lines of a file opened with [newline=""], without their
    terminators (line feed, carriage return, or both in this order). *)
Fixpoint lines (s : string) : list string :=
  match s with
  | EmptyString => []
  | String c s' =>
      if is_lf c then EmptyString :: lines s'
      else if is_cr c then
        match s' with
        | String c' s'' => if is_lf c' then EmptyString :: lines s''
                           else EmptyString :: lines s'
        | EmptyString => [EmptyString]
        end
      else match lines s' with
           | [] => [String c EmptyString]
           | l :: ls => String c l :: ls
           end
  end.

(** An empty line is the empty record. *)
Definition record (line : string) : list string :=
  match line with
  | EmptyString => []
  | _ => Py.split_on "," line
  end.

Definition reader (text : string) : list (list string) := map record (lines text).

(** The characters of a field that the reader takes as they are: no
    comma, no quote, no line terminator. *)
Definition plain_char (c : ascii) : bool :=
  let n := nat_of_ascii c in
  negb ((n =? 44)%nat || (n =? 34)%nat || (n =? 10)%nat || (n =? 13)%nat).

Fixpoint plain (s : string) : bool :=
  match s with
  | EmptyString => true
  | String c s' => plain_char c && plain s'
  end.

(** No line terminator in [s]. *)
Fixpoint no_eol (s : string) : bool :=
  match s with
  | EmptyString => true
  | String c s' => negb (is_lf c) && negb (is_cr c) && no_eol s'
  end.

(** A row of [csv.DictReader]: the entries under the field names, and the
    surplus fields, which the reader stores under the key [None]. *)
Record row : Type := {
  fields : Dict.t (option string);
  restkey : option (list string)
}.

(** [dict(zip(fieldnames, record))], then the surplus under [restkey] or
    [restval] (both [None]) for the names without a field. *)
Definition dict_row (fieldnames record : list string) : row :=
  let d := Dict.of_items (zip fieldnames (map Some record)) in
  let lf := length fieldnames in
  let lr := length record in
  if (lf <? lr)%nat then
    {| fields := d; restkey := Some (drop lf record) |}
  else
    {| fields := fold_left (fun d key => Dict.set d key None) (drop lr fieldnames) d;
       restkey := None |}.

(** [fieldnames] is the first record; empty records after it are passed
    over. *)
Definition dict_reader (records : list (list string)) : option (list string * list row) :=
  match records with
  | [] => None
  | fieldnames :: rest =>
      Some (fieldnames,
            map (dict_row fieldnames) (filter (fun r => r <> []) rest))
  end.

End Csv.

(** ** [scripts/convert_to_coco.py] *)

Module Coco.

(** [CsvBox] *)
Record CsvBox (F : Type) : Type := {
  x : F;
  y : F;
  width : F;
  height : F
}.
Arguments x {F} _.
Arguments y {F} _.
Arguments width {F} _.
Arguments height {F} _.

(** The dictionaries of the [images], [annotations] and [categories]
    lists of an export. *)
Record image : Type := {
  img_id : Z;
  img_file_name : string;
  img_width : Z;
  img_height : Z
}.

Record annotation (F : Type) : Type := {
  ann_id : Z;
  ann_image_id : Z;
  ann_category_id : Z;
  ann_bbox : list F;
  ann_area : F;
  ann_iscrowd : Z
}.
Arguments ann_id {F} _.
Arguments ann_image_id {F} _.
Arguments ann_category_id {F} _.
Arguments ann_bbox {F} _.
Arguments ann_area {F} _.
Arguments ann_iscrowd {F} _.

Record category : Type := {
  cat_id : Z;
  cat_name : string;
  cat_supercategory : string
}.

Section Converter.
Context {F : Type} `{PyNumber F}.

(** [PIL.Image.open(p)] on the bytes of the file: width and height, or
    [None] when the bytes are no image. *)
Variable image_size : string -> option (Z * Z).

(** [_read_split_list] *)
Definition _read_split_list (fs : FS.t) (split_file : string) : result (list string) :=
  if negb (FS.exists_ fs split_file) then Ok []
  else text ← FS.read fs split_file; Ok (Py.stripped_splitlines text).

(** [_image_size] *)
Definition _image_size (fs : FS.t) (image_path : string) : result (Z * Z) :=
  bytes ← FS.read fs image_path;
  match image_size bytes with
  | Some wh => Ok wh
  | None => Raise UnidentifiedImageError
  end.

(** The inner function [get] of [_parse_csv_boxes]. *)
Fixpoint get (row : Dict.t (option string)) (keys : list string) : option F :=
  match keys with
  | [] => None
  | key :: keys' =>
      match Dict.get row key with
      | Some (Some v) =>
          if Py.nonempty v then
            match float_of_str v with
            | Some f => Some f
            | None => get row keys'
            end
          else get row keys'
      | _ => get row keys'
      end
  end.

(** [{k.lower(): v for k, v in raw_row.items()}]: the key [None] of a
    row with surplus fields has no [lower]. *)
Definition lower_row (raw_row : Csv.row) : result (Dict.t (option string)) :=
  match Csv.restkey raw_row with
  | Some _ => Raise AttributeError
  | None => Ok (Dict.of_items (map (fun '(k, v) => (Py.lower k, v)) (Csv.fields raw_row)))
  end.

(** The body of the loop over the rows: the box the row contributes, if
    any. *)
Definition row_box (raw_row : Csv.row) : result (option (CsvBox F)) :=
  row ← lower_row raw_row;
  let x := get row ["x"; "xc"; "x_center"] in
  let y := get row ["y"; "yc"; "y_center"] in
  let w := get row ["w"; "width"; "dx"] in
  let h := get row ["h"; "height"; "dy"] in
  match x, y with
  | Some x, Some y =>
      match w, h with
      | Some w, Some h => Ok (Some {| x := x; y := y; width := w; height := h |})
      | _, _ => Ok None
      end
  | _, _ => Ok None
  end.

(** The loop over the rows. *)
Fixpoint rows_boxes (rows : list Csv.row) : result (list (CsvBox F)) :=
  match rows with
  | [] => Ok []
  | raw_row :: rows' =>
      b ← row_box raw_row;
      boxes ← rows_boxes rows';
      Ok (match b with Some box => box :: boxes | None => boxes end)
  end.

(** [_parse_csv_boxes] on the records that [csv.reader] yields. *)
Definition parse_records (records : list (list string)) : result (list (CsvBox F)) :=
  match Csv.dict_reader records with
  | None => Ok []
  | Some (_, rows) => rows_boxes rows
  end.

(** [_parse_csv_boxes] *)
Definition _parse_csv_boxes (fs : FS.t) (csv_path : string) : result (list (CsvBox F)) :=
  if negb (FS.exists_ fs csv_path) then Ok []
  else text ← FS.read fs csv_path; parse_records (Csv.reader text).

(** The first of [stem.jpg], [stem.JPG], [stem.png] that exists under
    [images_dir], if any. *)
Definition find_image (fs : FS.t) (images_dir stem : string) : option string :=
  let img_path := images_dir // (stem +:+ ".jpg") in
  let img_path := if negb (FS.exists_ fs img_path)
                  then images_dir // (stem +:+ ".JPG") else img_path in
  let img_path := if negb (FS.exists_ fs img_path)
                  then images_dir // (stem +:+ ".png") else img_path in
  if negb (FS.exists_ fs img_path) then None else Some img_path.

(** The stems that have an image, in the order of [stems], each with
    the path of its image. *)
Definition resolved (fs : FS.t) (images_dir : string) (stems : list string)
    : list (string * string) :=
  omap (fun stem => (fun img_path => (stem, img_path)) <$> find_image fs images_dir stem) stems.

(** [[box.x, box.y, box.width, box.height]] *)
Definition bbox_of (box : CsvBox F) : list F :=
  [x box; y box; width box; height box].

(** [category[:-1] if category.endswith("s") else category] *)
Definition category_singular (category_name : string) : string :=
  if Py.endswith "s" category_name then Py.drop_last category_name else category_name.

(** [{p.stem for p in images_dir.glob("*" + ext)}] *)
Definition glob_stems (fs : FS.t) (images_dir ext : string) : gset string :=
  list_to_set (map Path.stem (FS.glob fs images_dir ext)).

(** An image of the fall-back: an entry of [images_dir] named
    [<pre>.jpg], [<pre>.JPG] or [<pre>.png]. *)
Definition image_entry (fs : FS.t) (images_dir n : string) : Prop :=
  is_Some (fs !! (images_dir // n)) ∧ ¬ Py.occurs_in "/" n ∧
  ∃ pre, n = pre +:+ ".jpg" ∨ n = pre +:+ ".JPG" ∨ n = pre +:+ ".png".

(** The stems of a split: lines 113 to 119. *)
Definition image_stems (fs : FS.t) (category_root split : string) : result (gset string) :=
  let images_dir := category_root // "images" in
  let sets_dir := category_root // "sets" in
  let split_file := sets_dir // (split +:+ ".txt") in
  lines ← _read_split_list fs split_file;
  let image_stems : gset string := list_to_set lines in
  if decide (image_stems = ∅) then
    Ok (glob_stems fs images_dir ".jpg" ∪ glob_stems fs images_dir ".JPG"
        ∪ glob_stems fs images_dir ".png")
  else Ok image_stems.

(** [sorted(image_stems)] *)
Definition sorted (stems : gset string) : list string :=
  merge_sort String.le (elements stems).

(** The state of the loop of [_collect_annotations_for_split]. *)
Record collector : Type := {
  images : list image;
  anns : list (annotation F);
  image_id_counter : Z;
  ann_id_counter : Z
}.

(** The loop over the boxes of one image. *)
Definition add_boxes (st : collector) (boxes : list (CsvBox F)) : collector :=
  fold_left (fun st box =>
               {| images := images st;
                  anns := anns st ++
                    [{| ann_id := ann_id_counter st;
                        ann_image_id := image_id_counter st;
                        ann_category_id := 1;
                        ann_bbox := bbox_of box;
                        ann_area := number_mul (width box) (height box);
                        ann_iscrowd := 0 |}];
                  image_id_counter := image_id_counter st;
                  ann_id_counter := ann_id_counter st + 1 |})
            boxes st.

(** One round of the loop over the sorted stems. *)
Definition collect_stem (fs : FS.t) (category_root : string)
    (st : collector) (stem : string) : result collector :=
  let images_dir := category_root // "images" in
  let annotations_dir := category_root // "csv" in
  match find_image fs images_dir stem with
  | None => Ok st
  | Some img_path =>
      '(width, height) ← _image_size fs img_path;
      let st1 :=
        {| images := images st ++
             [{| img_id := image_id_counter st;
                 img_file_name := Path.relative_to_parent category_root img_path;
                 img_width := width;
                 img_height := height |}];
           anns := anns st;
           image_id_counter := image_id_counter st;
           ann_id_counter := ann_id_counter st |} in
      let csv_path := annotations_dir // (stem +:+ ".csv") in
      boxes ← _parse_csv_boxes fs csv_path;
      let st2 := add_boxes st1 boxes in
      Ok {| images := images st2;
            anns := anns st2;
            image_id_counter := image_id_counter st2 + 1;
            ann_id_counter := ann_id_counter st2 |}
  end.

Fixpoint collect_stems (fs : FS.t) (category_root : string)
    (st : collector) (stems : list string) : result collector :=
  match stems with
  | [] => Ok st
  | stem :: stems' =>
      st' ← collect_stem fs category_root st stem;
      collect_stems fs category_root st' stems'
  end.

(** An export: [(images, anns, categories)]. *)
Definition export : Type := list image * list (annotation F) * list category.

(** [_collect_annotations_for_split] *)
Definition _collect_annotations_for_split (fs : FS.t)
    (category_root split category_name : string) : result export :=
  stems ← image_stems fs category_root split;
  let categories :=
    [{| cat_id := 1; cat_name := category_singular category_name;
        cat_supercategory := "plant" |}] in
  st ← collect_stems fs category_root
         {| images := []; anns := []; image_id_counter := 1; ann_id_counter := 1 |}
         (sorted stems);
  Ok (images st, anns st, categories).

(** The state of the loops of [_merge_coco_splits]. *)
Record merger : Type := {
  m_images : list image;
  m_anns : list (annotation F);
  next_image_id : Z;
  next_ann_id : Z
}.

(** The numbering of the merged document so far: image and annotation
    ids are 1, 2, ... in the order of the lists, and every annotation
    names an image of the list. *)
Definition numbered (st : merger) : Prop :=
  map img_id (m_images st) = seqZ 1 (Z.of_nat (length (m_images st))) ∧
  next_image_id st = 1 + Z.of_nat (length (m_images st)) ∧
  map ann_id (m_anns st) = seqZ 1 (Z.of_nat (length (m_anns st))) ∧
  next_ann_id st = 1 + Z.of_nat (length (m_anns st)) ∧
  Forall (fun a => 1 ≤ ann_image_id a < next_image_id st) (m_anns st).

(** [enumerate(category_names, start=1)]: the [categories] list and the
    dictionary [category_to_cat]. *)
Fixpoint number_categories (idx : Z) (category_names : list string)
    (category_to_cat : gmap string Z) : list category * gmap string Z :=
  match category_names with
  | [] => ([], category_to_cat)
  | category :: rest =>
      let '(cats, m) := number_categories (idx + 1) rest (<[category := idx]> category_to_cat) in
      ({| cat_id := idx; cat_name := category_singular category;
          cat_supercategory := "plant" |} :: cats, m)
  end.

(** The loop over [img_list]: the merger and [id_map]. *)
Fixpoint merge_images (img_list : list image) (st : merger) (id_map : gmap Z Z)
    : merger * gmap Z Z :=
  match img_list with
  | [] => (st, id_map)
  | img :: rest =>
      let old_id := img_id img in
      let new_img := {| img_id := next_image_id st;
                        img_file_name := img_file_name img;
                        img_width := img_width img;
                        img_height := img_height img |} in
      merge_images rest
        {| m_images := m_images st ++ [new_img];
           m_anns := m_anns st;
           next_image_id := next_image_id st + 1;
           next_ann_id := next_ann_id st |}
        (<[old_id := next_image_id st]> id_map)
  end.

(** The loop over [ann_list]; [id_map[...]] and [category_to_cat[...]]
    raise [KeyError] on a missing key. *)
Fixpoint merge_anns (ann_list : list (annotation F)) (id_map : gmap Z Z)
    (category_to_cat : gmap string Z) (category : string) (st : merger) : result merger :=
  match ann_list with
  | [] => Ok st
  | ann :: rest =>
      match id_map !! ann_image_id ann with
      | None => Raise KeyError
      | Some new_image_id =>
          match category_to_cat !! category with
          | None => Raise KeyError
          | Some cat =>
              let new_ann := {| ann_id := next_ann_id st;
                                ann_image_id := new_image_id;
                                ann_category_id := cat;
                                ann_bbox := ann_bbox ann;
                                ann_area := ann_area ann;
                                ann_iscrowd := ann_iscrowd ann |} in
              merge_anns rest id_map category_to_cat category
                {| m_images := m_images st;
                   m_anns := m_anns st ++ [new_ann];
                   next_image_id := next_image_id st;
                   next_ann_id := next_ann_id st + 1 |}
          end
      end
  end.

(** The loop over [zip(per_category, category_names)]. *)
Fixpoint merge_zip (pairs : list (export * string)) (category_to_cat : gmap string Z)
    (st : merger) : result merger :=
  match pairs with
  | [] => Ok st
  | ((img_list, ann_list, _cats), category) :: rest =>
      let '(st1, id_map) := merge_images img_list st ∅ in
      st2 ← merge_anns ann_list id_map category_to_cat category st1;
      merge_zip rest category_to_cat st2
  end.

(** [_merge_coco_splits] *)
Definition _merge_coco_splits (per_category : list export)
    (category_names : list string) : result export :=
  let '(categories, category_to_cat) := number_categories 1 category_names ∅ in
  st ← merge_zip (zip per_category category_names) category_to_cat
         {| m_images := []; m_anns := []; next_image_id := 1; next_ann_id := 1 |};
  Ok (m_images st, m_anns st, categories).

(** The loop over [categories] in [convert]: the exports of the
    categories whose directory exists. *)
Fixpoint per_category_results (fs : FS.t) (root split : string)
    (categories : list string) : result (list export) :=
  match categories with
  | [] => Ok []
  | category :: rest =>
      let category_root := root // category in
      if negb (FS.exists_ fs category_root) then per_category_results fs root split rest
      else
        e ← _collect_annotations_for_split fs category_root split category;
        es ← per_category_results fs root split rest;
        Ok (e :: es)
  end.

(** The body of the loop over [splits] in [convert]: the exports written
    to [<category>_instances_<split>.json], and the one written to
    [combined_instances_<split>.json] if any.  [json.dumps] and the
    output files themselves are left out. *)
Definition convert_split (fs : FS.t) (root : string) (categories : list string)
    (split : string) (combined : bool) : result (list export * option export) :=
  results ← per_category_results fs root split categories;
  if combined && (1 <? length results)%nat then
    merged ← _merge_coco_splits results categories;
    Ok (results, Some merged)
  else Ok (results, None).

End Converter.

End Coco.

(** ** [scripts/reorganize_dataset.py]: images and annotations *)

Module Reorganize.

(** The annotation JSON of an image, as far as the script reads it: the
    [annotations] list, and [bbox] and [category_id] of each entry.  A key
    that is absent is [None]. *)
Record json_annotation (F : Type) : Type := {
  bbox : option (list F);
  category_id : option Z
}.
Arguments bbox {F} _.
Arguments category_id {F} _.

Record json_data (F : Type) : Type := {
  annotations : option (list (json_annotation F))
}.
Arguments annotations {F} _.

Section Reorganizer.
Context {F : Type} `{PyNumber F}.

(** [json.load] on the text of a file; [None] when it raises. *)
Variable json_load : string -> option (json_data F).

(** A number that comes back from its CSV field: the field is not
    empty, holds no comma, quote or line terminator, and [float] reads
    the number back. *)
Definition round_trips (v : F) : Prop :=
  Csv.plain (str_of_number v) = true ∧
  Py.nonempty (str_of_number v) = true ∧
  float_of_str (str_of_number v) = Some v.

(** [box] is the box of the entry [ann]: the entry has a [category_id]
    and a [bbox] that starts with the four numbers of [box], each of
    which comes back from its field. *)
Definition annotation_box (ann : json_annotation F) (box : Coco.CsvBox F) : Prop :=
  ∃ rest c,
    bbox ann = Some (Coco.x box :: Coco.y box :: Coco.width box :: Coco.height box :: rest) ∧
    category_id ann = Some c ∧
    round_trips (Coco.x box) ∧ round_trips (Coco.y box) ∧
    round_trips (Coco.width box) ∧ round_trips (Coco.height box).

Definition header : string := "#item,x,y,width,height,label" +:+ Py.nl.

(** The record of the header line. *)
Definition fieldnames : list string := ["#item"; "x"; "y"; "width"; "height"; "label"].

(** The line of a data row, without its line feed. *)
Definition row_line (item sx sy sw sh label : string) : string :=
  item +:+ "," +:+ sx +:+ "," +:+ sy +:+ "," +:+ sw +:+ "," +:+ sh +:+ "," +:+ label.

(** The text of one row, or the exception of [ann['bbox']],
    [ann['category_id']] or [bbox[i]]. *)
Definition csv_row (idx : nat) (ann : json_annotation F) : result string :=
  match bbox ann with
  | None => Raise KeyError
  | Some bbox =>
      match category_id ann with
      | None => Raise KeyError
      | Some category_id =>
          let label := if decide (category_id ≠ 0) then 1 else 0 in
          match bbox with
          | b0 :: b1 :: b2 :: b3 :: _ =>
              Ok (pretty idx +:+ "," +:+ str_of_number b0 +:+ "," +:+ str_of_number b1
                  +:+ "," +:+ str_of_number b2 +:+ "," +:+ str_of_number b3
                  +:+ "," +:+ pretty label +:+ Py.nl)
          | _ => Raise IndexError
          end
      end
  end.

(** The rows written by the loop over [enumerate(annotations)] from
    index [idx] on, and the exception that ended it, if any. *)
Fixpoint csv_rows (idx : nat) (annotations : list (json_annotation F))
    : string * option exn :=
  match annotations with
  | [] => (EmptyString, None)
  | ann :: rest =>
      match csv_row idx ann with
      | Raise e => (EmptyString, Some e)
      | Ok r => let '(text, e) := csv_rows (S idx) rest in (r +:+ text, e)
      end
  end.

(** [json_to_csv]: the file system after the call, and the exception
    the call raised, if any.  What was written before the exception
    stays in the file. *)
Definition json_to_csv (json_data : json_data F) (csv_path : string) (fs : FS.t)
    : FS.t * option exn :=
  let annotations := default [] (annotations json_data) in
  match annotations with
  | [] =>
      match FS.write fs csv_path header with
      | Ok fs' => (fs', None)
      | Raise e => (fs, Some e)
      end
  | _ =>
      let '(rows, e) := csv_rows 0 annotations in
      match FS.write fs csv_path (header +:+ rows) with
      | Ok fs' => (fs', e)
      | Raise e' => (fs, Some e')
      end
  end.

(** [read_json_file] *)
Definition read_json_file (fs : FS.t) (json_path : string) : result (json_data F) :=
  text ← FS.read fs json_path;
  match json_load text with
  | Some d => Ok d
  | None => Raise JSONDecodeError
  end.

(** The state of a run: the file system and the warnings printed, each
    with the path of the JSON file it names. *)
Definition state : Type := FS.t * list string.

(** The body of the loop of [process_directory]. *)
Definition process_image (source_path images_dir json_dir csv_dir : string)
    (st : state) (img_file : string) : result state :=
  let '(fs, warnings) := st in
  let stem := Path.stem img_file in
  let json_file := source_path // (stem +:+ ".json") in
  let json_file := if negb (FS.exists_ fs json_file)
                   then source_path // (Path.name img_file +:+ ".json")
                   else json_file in
  let target_img := images_dir // Path.name img_file in
  fs1 ← FS.copy2 fs img_file target_img;
  if FS.exists_ fs1 json_file then
    let target_json := json_dir // (stem +:+ ".json") in
    fs2 ← FS.copy2 fs1 json_file target_json;
    match read_json_file fs2 json_file with
    | Ok json_data =>
        let csv_file := csv_dir // (stem +:+ ".csv") in
        match json_to_csv json_data csv_file fs2 with
        | (fs3, None) => Ok (fs3, warnings)
        | (fs3, Some _) => Ok (fs3, warnings ++ [json_file])%list
        end
    | Raise _ => Ok (fs2, warnings ++ [json_file])%list
    end
  else
    let csv_file := csv_dir // (stem +:+ ".csv") in
    fs2 ← FS.write fs1 csv_file header;
    Ok (fs2, warnings).

(** [process_directory] *)
Definition process_directory (source_path images_dir json_dir csv_dir image_ext : string)
    (fs : FS.t) : result state :=
  let image_files :=
    (FS.glob fs source_path image_ext ++ FS.glob fs source_path (Py.lower image_ext))%list in
  fold_left (fun r img_file =>
               st ← r;
               process_image source_path images_dir json_dir csv_dir st img_file)
            image_files (Ok (fs, [])).

End Reorganizer.

End Reorganize.

(** ** Integer coordinates

    The numbers of annotations whose coordinates are integers of moderate
    size: [f"{n}"] is the decimal numeral of [n], [float] of a decimal
    numeral is that integer, exactly.  This instance reads nothing but
    optionally signed decimal numerals; it is used to run the scripts on
    concrete files. *)

Module IntCoords.

Definition digit (c : ascii) : option Z :=
  let n := nat_of_ascii c in
  if (48 <=? n)%nat && (n <=? 57)%nat then Some (Z.of_nat n - 48) else None.

Fixpoint digits (acc : Z) (s : string) : option Z :=
  match s with
  | EmptyString => Some acc
  | String c s' =>
      match digit c with
      | Some d => digits (10 * acc + d) s'
      | None => None
      end
  end.

Definition numeral (s : string) : option Z :=
  match s with
  | EmptyString => None
  | String c s' =>
      if Ascii.eqb c "-" then
        match s' with
        | EmptyString => None
        | _ => Z.opp <$> digits 0 s'
        end
      else digits 0 s
  end.

Global Instance number : PyNumber Z := {|
  float_of_str := numeral;
  str_of_number := pretty;
  number_mul := Z.mul
|}.

End IntCoords.

(** ** What a merge copies *)

Module Merged.

(** The fields of an image that a merge copies. *)
Definition image_fields (img : Coco.image) : string * Z * Z :=
  (Coco.img_file_name img, Coco.img_width img, Coco.img_height img).

(** The fields of an annotation that a merge copies. *)
Definition annotation_fields {F : Type} (a : Coco.annotation F) : list F * F * Z :=
  (Coco.ann_bbox a, Coco.ann_area a, Coco.ann_iscrowd a).

(** The annotations of an export name images of the export. *)
Definition closed {F : Type} (e : Coco.export (F := F)) : Prop :=
  Forall (fun a => Coco.ann_image_id a ∈ map Coco.img_id (fst (fst e))) (snd (fst e)).

End Merged.

(** ** One round of [reorganize_splits] *)

Module SplitRound.

(** The split files that the loops go through. *)
Definition split_files : list string := ["train.txt"; "val.txt"; "test.txt"].

(** The body of the loop over the split files. *)
Definition split_round (all_path : string) (category_dirs : Dict.t string)
    (fs : FS.t) (split_file : string) : result FS.t :=
  let split_path := all_path // split_file in
  if negb (FS.exists_ fs split_path) then Ok fs
  else
    text ← FS.read fs split_path;
    ReorganizeSplits.write_category_splits
      (ReorganizeSplits.group_lines (Py.stripped_lines text)) split_file category_dirs fs.

(** The stems of the lines of [text] on which the test of line 125 gives
    [orange], in the order of the file. *)
Definition stems_of (orange : bool) (text : string) : list string :=
  map Path.stem (filter (fun l => ReorganizeSplits.is_orange l = orange)
                        (Py.stripped_lines text)).

(** What is at the path of a category's split file after a round: the
    stems, one per line, when there is one, and what was there before
    when there is none. *)
Definition category_split (stems : list string) (old : option FS.node) : option FS.node :=
  match stems with
  | [] => old
  | _ => Some (FS.File (String.concat "" (map (fun s => s +:+ Py.nl) stems)))
  end.

(** The same from the file system before the round. *)
Definition expected (fs : FS.t) (all_path category_dir split_file : string) (orange : bool)
  : option FS.node :=
  match fs !! (all_path // split_file) with
  | Some (FS.File text) =>
      category_split (stems_of orange text) (fs !! (category_dir // "sets" // split_file))
  | _ => fs !! (category_dir // "sets" // split_file)
  end.

(** A round for the split file [split_file] writes at four paths at
    most: the [sets] directories of the two categories and their files
    for this split. *)
Definition untouched (oranges_dir backgrounds_dir split_file : string) (fs fs' : FS.t) : Prop :=
  ∀ p, p ≠ oranges_dir // "sets" → p ≠ backgrounds_dir // "sets" →
       p ≠ oranges_dir // "sets" // split_file → p ≠ backgrounds_dir // "sets" // split_file →
       fs' !! p = fs !! p.

(** The [sets] directory of a category is as before or a directory. *)
Definition sets_kept (category_dir : string) (fs fs' : FS.t) : Prop :=
  fs' !! (category_dir // "sets") = fs !! (category_dir // "sets")
  ∨ fs' !! (category_dir // "sets") = Some FS.Dir.

End SplitRound.

(** ** The resolution of split lines, in the words of the specification

    The exact lookups are those of the script.  The scan compares the
    extension-stripped form of every key with the extension-stripped line,
    case-sensitively and case-insensitively. *)

Module FixSplitsSpec.

Fixpoint scan (items : Dict.t string) (line_stem : string) : option string :=
  match items with
  | [] => None
  | (orig, actual) :: items' =>
      if String.eqb (Path.stem orig) line_stem
         || String.eqb (Py.lower (Path.stem orig)) (Py.lower line_stem)
      then Some actual
      else scan items' line_stem
  end.

Definition resolve (mapping : Dict.t string) (line : string) : option string :=
  match FixSplits.lookup_first mapping (FixSplits.exact_keys line) with
  | Some actual => Some actual
  | None => scan mapping (Path.stem line)
  end.

End FixSplitsSpec.

(** ** Concrete trees

    The file systems on which the scripts are run below. *)

Module Fixture.

(** A stand-in for image files: the bytes [<w>x<h>] are an image of width
    [w] and height [h], anything else is no image. *)
Definition image_size (bytes : string) : option (Z * Z) :=
  match Py.split_on "x" bytes with
  | [w; h] =>
      match IntCoords.numeral w, IntCoords.numeral h with
      | Some w, Some h => Some (w, h)
      | _, _ => None
      end
  | _ => None
  end.

(** A raw source directory: two images, the first with an annotation
    file that is no JSON. *)
Definition raw_tree : FS.t :=
  <["raw/a.JPG" := FS.File "640x480"]>
  (<["raw/a.json" := FS.File "{"]>
  (<["raw/b.JPG" := FS.File "320x240"]> ∅)).

(** A loader for directories without a well-formed annotation file. *)
Definition no_json : string -> option (Reorganize.json_data Z) := fun _ => None.

(** A CSV file with a data row of five fields under a header of four. *)
Definition long_row_csv : string :=
  "x,y,w,h" +:+ Py.nl +:+ "1,2,3,4,5" +:+ Py.nl.

Definition long_row_tree : FS.t := <["oranges/csv/a.csv" := FS.File long_row_csv]> ∅.

(** A canonical layout with two categories and no split files. *)
Definition dataset : FS.t :=
  <["data/oranges" := FS.Dir]>
  (<["data/oranges/images/a.jpg" := FS.File "640x480"]>
  (<["data/oranges/images/b.JPG" := FS.File "640x480"]>
  (<["data/oranges/csv/a.csv" :=
       FS.File ("x,y,w,h" +:+ Py.nl +:+ "1,2,3,4" +:+ Py.nl +:+ "5,6,7,8" +:+ Py.nl)]>
  (<["data/backgrounds" := FS.Dir]>
  (<["data/backgrounds/images/z.png" := FS.File "32x32"]>
  (<["data/backgrounds/csv/z.csv" :=
       FS.File ("x,y,w,h" +:+ Py.nl +:+ "1,1,1,1" +:+ Py.nl)]> ∅)))))).

(** The same layout with a split file that names an image that does not
    exist. *)
Definition dataset_with_split : FS.t :=
  <["data/oranges/sets/train.txt" :=
      FS.File ("b" +:+ Py.nl +:+ "missing" +:+ Py.nl +:+ "a" +:+ Py.nl)]> dataset.

(** Split files in the original naming, and a mapping to canonical stems. *)
Definition all_tree : FS.t :=
  <["all/train.txt" :=
      FS.File ("IMG_B.JPG" +:+ Py.nl +:+ "img_a.jpg" +:+ Py.nl +:+ "nowhere.jpg" +:+ Py.nl
               +:+ "IMG_B" +:+ Py.nl)]>
  (<["all/val.txt" := FS.File ("img_c" +:+ Py.nl)]>
  (<["oranges/sets/train.txt" := FS.File ("stale" +:+ Py.nl)]> ∅)).

Definition mapping : Dict.t string :=
  [("IMG_A", "0001"); ("IMG_A.JPG", "0001"); ("img_a", "0001"); ("img_a.jpg", "0001");
   ("IMG_B", "0002"); ("IMG_B.JPG", "0002"); ("img_b", "0002"); ("img_b.jpg", "0002");
   ("IMG_C", "0003"); ("IMG_C.JPG", "0003"); ("img_c", "0003"); ("img_c.jpg", "0003")].

(** An annotation file with two boxes. *)
Definition two_boxes : Reorganize.json_data Z :=
  {| Reorganize.annotations :=
       Some [{| Reorganize.bbox := Some [10; 20; 30; 40]; Reorganize.category_id := Some 1 |};
             {| Reorganize.bbox := Some [5; 6; 7; 8; 9]; Reorganize.category_id := Some 0 |}] |}.

(** The export of [oranges] for the split [train] of
    [dataset_with_split]. *)
Definition oranges_train : Coco.export (F := Z) :=
  Eval vm_compute in
    match Coco._collect_annotations_for_split image_size dataset_with_split
            "data/oranges" "train" "oranges" with
    | Ok e => e
    | Raise _ => ([], [], [])
    end.

End Fixture.

(** ** More concrete inputs *)

Module Fixture2.

(** The exports of the two categories of [Fixture.dataset], without split
    files, and their merge. *)
Definition oranges_all : Coco.export (F := Z) :=
  Eval vm_compute in
    match Coco._collect_annotations_for_split Fixture.image_size Fixture.dataset
            "data/oranges" "train" "oranges" with
    | Ok e => e
    | Raise _ => ([], [], [])
    end.

Definition backgrounds_all : Coco.export (F := Z) :=
  Eval vm_compute in
    match Coco._collect_annotations_for_split Fixture.image_size Fixture.dataset
            "data/backgrounds" "train" "backgrounds" with
    | Ok e => e
    | Raise _ => ([], [], [])
    end.

Definition merged : Coco.export (F := Z) :=
  Eval vm_compute in
    match Coco._merge_coco_splits [oranges_all; backgrounds_all] ["oranges"; "backgrounds"] with
    | Ok e => e
    | Raise _ => ([], [], [])
    end.

(** A header in mixed case and a row that is one field short. *)
Definition mixed_header : list string := ["#Item"; "X"; "y"; "Width"; "HEIGHT"].
Definition short_row : list string := ["0"; "1.5"; "2"; "30"].

(** A tree with a CSV file that has a header and blank lines only. *)
Definition blank_csv_tree : FS.t :=
  <["oranges/csv/a.csv" := FS.File ("x,y,w,h" +:+ Py.nl +:+ Py.nl +:+ Py.nl)]> ∅.

End Fixture2.

(** ** Inputs on which the specification and the scripts part *)

Module Fixture3.

(** An annotation file whose only entry has no [category_id]. *)
Definition no_category_id : Reorganize.json_data Z :=
  {| Reorganize.annotations :=
       Some [{| Reorganize.bbox := Some [10; 20; 30; 40]; Reorganize.category_id := None |}] |}.

(** A category whose images carry the extensions [.PNG], [.Jpg] and
    [.jpeg], and no split file. *)
Definition other_extensions : FS.t :=
  <["data/oranges" := FS.Dir]>
  (<["data/oranges/images/a.PNG" := FS.File "32x32"]>
  (<["data/oranges/images/b.Jpg" := FS.File "32x32"]>
  (<["data/oranges/images/c.jpeg" := FS.File "32x32"]> ∅))).

(** Split files in the original naming for the Reorganizer: [train.txt]
    with lines of both categories, [val.txt] with healthy leaves only,
    over a stale [sets/val.txt] of [oranges]. *)
Definition splits_tree : FS.t :=
  <["raw/all/train.txt" :=
      FS.File ("CREC_HLB_0001.JPG" +:+ Py.nl +:+ "leaf_17.JPG" +:+ Py.nl
               +:+ "image (3).JPG" +:+ Py.nl)]>
  (<["raw/all/val.txt" := FS.File ("leaf_20.JPG" +:+ Py.nl)]>
  (<["data/oranges/sets/val.txt" := FS.File ("stale" +:+ Py.nl)]> ∅)).

End Fixture3.

(** * Properties *)

(** ** Strings *)

Module PyFacts.

Lemma app_cons a s t : String a s +:+ t = String a (s +:+ t).
Proof. reflexivity. Qed.

Lemma app_nil_l s : "" +:+ s = s.
Proof. reflexivity. Qed.

Lemma app_nil_r s : s +:+ "" = s.
Proof. induction s as [|a s IH]; [done|]. by rewrite app_cons, IH. Qed.

Lemma app_assoc s t u : (s +:+ t) +:+ u = s +:+ t +:+ u.
Proof. induction s as [|a s IH]; [done|]. by rewrite !app_cons, IH. Qed.

Lemma length_app s t : String.length (s +:+ t) = (String.length s + String.length t)%nat.
Proof. induction s as [|a s IH]; [done|]. rewrite app_cons. simpl. by rewrite IH. Qed.

Lemma ascii_eqb_true a b : Ascii.eqb a b = true ↔ a = b.
Proof. apply Ascii.eqb_eq. Qed.

Lemma startswith_spec p s : Py.startswith p s = true ↔ ∃ post, s = p +:+ post.
Proof.
  revert s. induction p as [|a p IH]; intros s; simpl.
  - split; [intros _; by exists s|done].
  - destruct s as [|b s].
    + split; [done|]. intros [post Hpost]. by rewrite app_cons in Hpost.
    + destruct (Ascii.eqb_spec a b) as [->|Hab].
      * rewrite IH. split; intros [post Hpost]; exists post.
        -- by rewrite app_cons, Hpost.
        -- rewrite app_cons in Hpost. congruence.
      * split; [done|]. intros [post Hpost]. rewrite app_cons in Hpost. congruence.
Qed.

Lemma contains_spec sub s : Py.contains sub s = true ↔ Py.occurs_in sub s.
Proof.
  unfold Py.occurs_in. induction s as [|a s IH].
  - simpl. rewrite orb_false_r, startswith_spec. split.
    + intros [post ->]. by exists "", post.
    + intros ([|b pre] & post & Hs).
      * by exists post.
      * by rewrite app_cons in Hs.
  - cbn [Py.contains]. rewrite orb_true_iff, IH, startswith_spec. split.
    + intros [[post ->]|(pre & post & ->)].
      * by exists "", post.
      * by exists (String a pre), post.
    + intros ([|b pre] & post & Hs).
      * left. by exists post.
      * right. rewrite app_cons in Hs. injection Hs as -> ->. by exists pre, post.
Qed.

Lemma endswith_spec p s : Py.endswith p s = true ↔ ∃ pre, s = pre +:+ p.
Proof.
  induction s as [|a s IH].
  - simpl. rewrite orb_false_r, String.eqb_eq. split.
    + intros ->. by exists "".
    + intros ([|b pre] & Hs); [done|by rewrite app_cons in Hs].
  - cbn [Py.endswith]. rewrite orb_true_iff, IH, String.eqb_eq. split.
    + intros [->|[pre ->]]; [by exists ""|by exists (String a pre)].
    + intros ([|b pre] & Hs).
      * by left.
      * right. rewrite app_cons in Hs. injection Hs as -> ->. by exists pre.
Qed.

Lemma drop_last_app s c : Py.drop_last (s +:+ String c "") = s.
Proof.
  induction s as [|a s IH]; [done|].
  rewrite app_cons. simpl. rewrite IH.
  destruct s; [done|]. by rewrite app_cons.
Qed.

Lemma rev_app_app a x acc :
  String.rev_app (a +:+ x) acc = String.rev_app x (String.rev_app a acc).
Proof.
  revert acc. induction a as [|c a IH]; intros acc; [done|].
  rewrite app_cons. simpl. apply IH.
Qed.

Lemma app_ne_self s t : t ≠ "" → s +:+ t ≠ s.
Proof.
  intros Ht Heq. apply Ht.
  apply (inj (String.app s)). by rewrite app_nil_r.
Qed.

End PyFacts.

(** Two paths that end differently are different. *)
Ltac path_neq :=
  let H := fresh in
  intros H; apply (f_equal String.rev) in H;
  unfold String.rev, Path.join in H;
  rewrite ?PyFacts.rev_app_app in H;
  repeat (rewrite ?PyFacts.app_cons, ?PyFacts.app_nil_l in H);
  simpl in H; discriminate H.

(** ** Dictionaries *)

Module DictFacts.

Section DictFacts.
Context {V : Type}.
Implicit Types (d : Dict.t V) (k : string) (v : V).

Lemma get_set d k k' v :
  Dict.get (Dict.set d k v) k' = if String.eqb k k' then Some v else Dict.get d k'.
Proof.
  induction d as [|[k0 v0] d IH]; simpl.
  - done.
  - destruct (String.eqb_spec k0 k) as [->|Hne]; simpl.
    + by destruct (String.eqb k k').
    + destruct (String.eqb_spec k0 k') as [->|Hne'].
      * destruct (String.eqb_spec k k'); [congruence|done].
      * done.
Qed.

Lemma get_set_eq d k v : Dict.get (Dict.set d k v) k = Some v.
Proof. by rewrite get_set, String.eqb_refl. Qed.

Lemma get_set_ne d k k' v : k ≠ k' → Dict.get (Dict.set d k v) k' = Dict.get d k'.
Proof. intros Hne. rewrite get_set. by destruct (String.eqb_spec k k'). Qed.
End DictFacts.

End DictFacts.

(** ** Lines written and read back *)

Module LinesFacts.

Lemma concat_cons x xs : String.concat "" (x :: xs) = x +:+ String.concat "" xs.
Proof. destruct xs as [|y xs]; simpl; [by rewrite PyFacts.app_nil_r|done]. Qed.

(** The text of [for l in ls: f.write(f"{l}\n")]: the elements of [ls]
    in order, each followed by a line feed. *)
Lemma write_lines_concat ls :
  Py.write_lines ls = String.concat "" (map (fun s => s +:+ Py.nl) ls).
Proof.
  induction ls as [|l ls IH]; [done|].
  change (Py.write_lines (l :: ls)) with (l +:+ Py.nl +:+ Py.write_lines ls).
  cbn [map]. by rewrite concat_cons, IH, PyFacts.app_assoc.
Qed.

Lemma join_inj_r a b x : a // x = b // x → a = b.
Proof.
  unfold Path.join. generalize ("/" +:+ x). intros y. revert b.
  induction a as [|c a IH]; intros [|d b] Heq.
  - done.
  - apply (f_equal String.length) in Heq.
    rewrite PyFacts.app_nil_l, PyFacts.app_cons in Heq. simpl in Heq.
    rewrite PyFacts.length_app in Heq. lia.
  - apply (f_equal String.length) in Heq.
    rewrite PyFacts.app_nil_l, PyFacts.app_cons in Heq. simpl in Heq.
    rewrite PyFacts.length_app in Heq. lia.
  - rewrite !PyFacts.app_cons in Heq. injection Heq as -> Heq. f_equal. by apply IH.
Qed.

Section Pieces.
Variable brk : ascii -> bool.

(** A string without a break is one piece. *)
Lemma pieces_single_cons a l :
  Py.pieces brk (String a l) = [String a l] → brk a = false ∧ Py.pieces brk l = [l].
Proof.
  simpl. destruct (brk a); [intros [=]|].
  destruct (Py.pieces brk l) as [|f fs] eqn:Hl.
  - destruct l; [done|]. intros [=].
  - intros [= -> ->]. done.
Qed.

(** A piece and its break before the rest of the text. *)
Lemma pieces_line l c t :
  brk c = true → Py.pieces brk l = [l] →
  Py.pieces brk (l +:+ String c t) = l :: Py.pieces brk t.
Proof.
  intros Hc. induction l as [|a l IH]; intros Hl.
  - rewrite PyFacts.app_nil_l. simpl. by rewrite Hc.
  - apply pieces_single_cons in Hl as [Ha Hl].
    rewrite PyFacts.app_cons. simpl. rewrite Ha. by rewrite IH.
Qed.

Lemma pieces_write_lines ls :
  brk (ascii_of_nat 10) = true →
  Forall (fun s => Py.pieces brk s = [s]) ls →
  Py.pieces brk (Py.write_lines ls) = (ls ++ [""])%list.
Proof.
  intros Hnl. induction 1 as [|l ls Hl _ IH]; [done|].
  change (Py.write_lines (l :: ls)) with (l +:+ String (ascii_of_nat 10) (Py.write_lines ls)).
  by rewrite pieces_line, IH.
Qed.

(** Lines that are stripped, not empty and without a break are read
    back as they were written. *)
Lemma read_back ls :
  brk (ascii_of_nat 10) = true →
  Forall (fun s => Py.pieces brk s = [s] ∧ Py.strip s = s ∧ s ≠ "") ls →
  filter (fun l => Py.nonempty l = true) (map Py.strip (Py.pieces brk (Py.write_lines ls))) = ls.
Proof.
  intros Hnl Hall. rewrite pieces_write_lines; [|done|].
  - rewrite map_app, filter_app. simpl.
    rewrite filter_cons, decide_False by done. rewrite filter_nil, app_nil_r.
    induction Hall as [|l ls (_ & Hstrip & Hne) _ IH]; [done|].
    cbn [map]. rewrite filter_cons, Hstrip, decide_True by (by destruct l). by rewrite IH.
  - eapply Forall_impl; [exact Hall|]. by intros s (? & _).
Qed.
End Pieces.

Lemma stripped_splitlines_write_lines ls :
  Forall (fun s => Py.pieces Py.is_linebreak s = [s] ∧ Py.strip s = s ∧ s ≠ "") ls →
  Py.stripped_splitlines (Py.write_lines ls) = ls.
Proof. intros Hall. by apply read_back. Qed.

Lemma stripped_lines_write_lines ls :
  Forall (fun s => Py.pieces Py.is_newline s = [s] ∧ Py.strip s = s ∧ s ≠ "") ls →
  Py.stripped_lines (Py.write_lines ls) = ls.
Proof. intros Hall. by apply read_back. Qed.

End LinesFacts.

(** ** The split files of the Reorganizer *)

Module ReorganizeSplitsFacts.
Import ReorganizeSplits.

Lemma is_orange_spec line :
  is_orange line = true ↔
  Py.occurs_in "CREC_HLB" line ∨ Py.occurs_in "UF.Citrus_HLB" line
  ∨ Py.occurs_in "image (" line.
Proof.
  unfold is_orange. rewrite !orb_true_iff, !PyFacts.contains_spec. tauto.
Qed.

Lemma lines_of_append_to d k v k' :
  lines_of (append_to d k v) k' =
  if String.eqb k k' then (lines_of d k ++ [v])%list else lines_of d k'.
Proof.
  unfold lines_of, append_to. rewrite DictFacts.get_set.
  by destruct (String.eqb k k').
Qed.

Lemma mem_append_to d k v k' :
  Dict.mem (append_to d k v) k' = String.eqb k k' || Dict.mem d k'.
Proof.
  unfold Dict.mem, append_to. rewrite DictFacts.get_set.
  by destruct (String.eqb k k').
Qed.

Lemma group_from_oranges lines d :
  lines_of (fold_left group_line lines d) "oranges" =
  (lines_of d "oranges" ++ map Path.stem (filter (fun l => is_orange l = true) lines))%list.
Proof.
  revert d. induction lines as [|line lines IH]; intros d; simpl.
  - by rewrite app_nil_r.
  - rewrite IH, filter_cons. unfold group_line.
    destruct (is_orange line) eqn:Ho; simpl.
    + rewrite lines_of_append_to. simpl. by rewrite <- app_assoc.
    + by rewrite lines_of_append_to.
Qed.

Lemma group_from_backgrounds lines d :
  lines_of (fold_left group_line lines d) "backgrounds" =
  (lines_of d "backgrounds" ++ map Path.stem (filter (fun l => is_orange l = false) lines))%list.
Proof.
  revert d. induction lines as [|line lines IH]; intros d; simpl.
  - by rewrite app_nil_r.
  - rewrite IH, filter_cons. unfold group_line.
    destruct (is_orange line) eqn:Ho; simpl.
    + by rewrite lines_of_append_to.
    + rewrite lines_of_append_to. simpl. by rewrite <- app_assoc.
Qed.

Lemma group_from_keys lines d k :
  Dict.mem (fold_left group_line lines d) k = true →
  Dict.mem d k = true ∨ k = "oranges" ∨ k = "backgrounds".
Proof.
  revert d. induction lines as [|line lines IH]; intros d; simpl; [by left|].
  intros Hk. apply IH in Hk as [Hk|Hk]; [|by right].
  unfold group_line in Hk.
  destruct (is_orange line); rewrite mem_append_to in Hk;
    apply orb_true_iff in Hk as [Hk%String.eqb_eq|Hk]; auto.
Qed.

(** The grouping in memory: a line goes to the list of [oranges]
    exactly when it contains [CREC_HLB], [UF.Citrus_HLB] or [image (];
    every other line goes to the list of [backgrounds].  The lists hold the
    stems of the lines in the order of the file, no other category gets a
    list, and the file system is no argument of the grouping. *)
Lemma group_lines_by_filename (lines : list string) :
  (∀ line, is_orange line = true ↔
           Py.occurs_in "CREC_HLB" line ∨ Py.occurs_in "UF.Citrus_HLB" line
           ∨ Py.occurs_in "image (" line) ∧
  lines_of (group_lines lines) "oranges" =
    map Path.stem (filter (fun l => is_orange l = true) lines) ∧
  lines_of (group_lines lines) "backgrounds" =
    map Path.stem (filter (fun l => is_orange l = false) lines) ∧
  (∀ k, Dict.mem (group_lines lines) k = true → k = "oranges" ∨ k = "backgrounds").
Proof.
  split; [exact is_orange_spec|].
  unfold group_lines.
  rewrite group_from_oranges, group_from_backgrounds.
  repeat split; [done..|].
  intros k Hk. by apply group_from_keys in Hk as [?|?].
Qed.

End ReorganizeSplitsFacts.

(** ** Sorting a set of strings *)

Section SortedSet.
Implicit Types (S : gset string) (l : list string).

Lemma sort_elements_sorted S :
  StronglySorted String.le (merge_sort String.le (elements S)).
Proof. apply StronglySorted_merge_sort; apply _. Qed.

Lemma sort_elements_NoDup S : NoDup (merge_sort String.le (elements S)).
Proof. rewrite merge_sort_Permutation. apply NoDup_elements. Qed.

Lemma elem_of_sort_elements S s :
  s ∈ merge_sort String.le (elements S) ↔ s ∈ S.
Proof. by rewrite merge_sort_Permutation, elem_of_elements. Qed.
End SortedSet.

(** ** The Split Fixer *)

Module FixSplitsFacts.
Import FixSplits.







(** The mapped lines are the resolutions of the lines that have one, in
    the order of the file; the unmapped ones are the others. *)
Lemma map_lines_spec mapping lines :
  map_lines mapping lines =
  (omap (resolve mapping) lines,
   filter (fun line => resolve mapping line = None) lines).
Proof.
  unfold map_lines.
  enough (∀ m u,
    fold_left (fun '(mapped_lines, unmapped) line =>
                 match resolve mapping line with
                 | Some actual => ((mapped_lines ++ [actual])%list, unmapped)
                 | None => (mapped_lines, (unmapped ++ [line])%list)
                 end) lines (m, u)
    = ((m ++ omap (resolve mapping) lines)%list,
       (u ++ filter (fun line => resolve mapping line = None) lines)%list)) as Hgen.
  { by rewrite Hgen. }
  induction lines as [|line lines IH]; intros m u; simpl.
  - by rewrite !app_nil_r.
  - rewrite filter_cons. destruct (resolve mapping line) as [actual|] eqn:Hres; simpl.
    + rewrite IH. by rewrite <- app_assoc.
    + rewrite IH. by rewrite <- app_assoc.
Qed.

Lemma sorted_set_spec (l : list string) :
  StronglySorted String.le (sorted_set l) ∧ NoDup (sorted_set l) ∧
  ∀ s, s ∈ sorted_set l ↔ s ∈ l.
Proof.
  unfold sorted_set. split_and!.
  - apply sort_elements_sorted.
  - apply sort_elements_NoDup.
  - intros s. by rewrite elem_of_sort_elements, elem_of_list_to_set.
Qed.

(** Lines that are not resolved leave no trace in the output. *)
Lemma split_lines_resolved_only mapping lines :
  fst (map_lines mapping lines) =
  fst (map_lines mapping (filter (fun line => is_Some (resolve mapping line)) lines)).
Proof.
  rewrite !map_lines_spec. cbn [fst].
  induction lines as [|line lines IH]; [done|].
  rewrite filter_cons. case_decide as Hres.
  - destruct Hres as [actual Hres]. csimpl. by rewrite Hres, IH.
  - csimpl. destruct (resolve mapping line) as [actual|] eqn:Hres'; [|done].
    exfalso. apply Hres. eauto.
Qed.

Lemma split_output_spec mapping text :
  ∃ out, split_output mapping text = Py.write_lines out ∧
    out = sorted_set (omap (resolve mapping) (Py.stripped_lines text)) ∧
    StronglySorted String.le out ∧ NoDup out ∧
    (∀ s, s ∈ out ↔
          ∃ line, line ∈ Py.stripped_lines text ∧ resolve mapping line = Some s).
Proof.
  unfold split_output. rewrite map_lines_spec. cbn [fst].
  eexists. split; [done|]. split; [done|].
  destruct (sorted_set_spec (omap (resolve mapping) (Py.stripped_lines text)))
    as (Hsorted & Hnodup & Hin).
  split_and!; [done..|].
  intros s. etrans; [apply Hin|]. rewrite list_elem_of_omap. naive_solver.
Qed.

Section Paths.
Variables (c a : string).

Lemma sets_file_ne_sets sf : c // "sets" // sf ≠ c // "sets".
Proof. unfold Path.join at 1. by apply PyFacts.app_ne_self. Qed.

Lemma sets_file_inj sf sf' : c // "sets" // sf = c // "sets" // sf' → sf = sf'.
Proof.
  unfold Path.join at 1 3. intros Heq.
  apply (inj (String.app _)) in Heq. by apply (inj (String.app "/")) in Heq.
Qed.
End Paths.

(** One round of the loop, on a file system where the split path is no
    directory, [sets] no file and the output path no directory. *)
Lemma fix_split_file_step mapping c a (fs : FS.t) sf :
  (fs !! (a // sf) = None ∨ ∃ text, fs !! (a // sf) = Some (FS.File text)) →
  (∀ x, fs !! (c // "sets") ≠ Some (FS.File x)) →
  fs !! (c // "sets" // sf) ≠ Some FS.Dir →
  ∃ fs' : FS.t, fix_split_file mapping c a fs sf = Ok fs' ∧
    (∀ text, fs !! (a // sf) = Some (FS.File text) →
             fs' !! (c // "sets" // sf) = Some (FS.File (split_output mapping text))) ∧
    (∀ p, p ≠ c // "sets" → p ≠ c // "sets" // sf → fs' !! p = fs !! p) ∧
    (fs' !! (c // "sets") = fs !! (c // "sets") ∨ fs' !! (c // "sets") = Some FS.Dir).
Proof.
  intros [Hnone|[text Htext]] Hsets Hout; unfold fix_split_file, FS.exists_.
  - rewrite Hnone. simpl. exists fs. split_and!; [done| |done|by left].
    intros text Htext. congruence.
  - rewrite Htext. simpl. unfold FS.read. rewrite Htext. simpl.
    assert (FS.mkdir fs (c // "sets") = Ok (<[c // "sets" := FS.Dir]> fs)) as ->.
    { unfold FS.mkdir. destruct (fs !! (c // "sets")) as [[x|]|] eqn:E; [|done..].
      by destruct (Hsets x). }
    simpl. unfold FS.write.
    rewrite lookup_insert_ne by (symmetry; apply sets_file_ne_sets).
    assert (∀ co, match fs !! (c // "sets" // sf) with
                  | Some FS.Dir => Raise IsADirectoryError
                  | _ => Ok (<[c // "sets" // sf := FS.File co]> (<[c // "sets" := FS.Dir]> fs))
                  end = Ok (<[c // "sets" // sf := FS.File co]> (<[c // "sets" := FS.Dir]> fs)))
      as ->.
    { intros co. by destruct (fs !! (c // "sets" // sf)) as [[x|]|]. }
    eexists. split; [done|]. split_and!.
    + intros text' Htext'. rewrite lookup_insert_eq. congruence.
    + intros p Hp1 Hp2. by rewrite !lookup_insert_ne.
    + right. rewrite lookup_insert_ne by apply sets_file_ne_sets.
      by rewrite lookup_insert_eq.
Qed.

(** C6. On a file system where the split paths under [all] are files or
    absent, the run ends without an exception, and for every split file
    that exists the file [sets/<split>.txt] holds, whatever it held
    before, the elements of [out] in order, each followed by a line feed
    and nothing else: the canonical stems that the lines of the split
    file resolve to, without duplicates, in ascending order.  Stems that
    are stripped, not empty and without a line break are read back from
    the file, line by line, as the list [out].  Every line of the output
    is the resolution of a line of the input: a line that is not resolved
    contributes none. *)
Theorem fix_splits_output (mapping : Dict.t string) (c a : string) (fs : FS.t) :
  (∀ sf, sf ∈ split_files →
         fs !! (a // sf) = None ∨ ∃ text, fs !! (a // sf) = Some (FS.File text)) →
  (∀ x, fs !! (c // "sets") ≠ Some (FS.File x)) →
  (∀ sf, sf ∈ split_files → fs !! (c // "sets" // sf) ≠ Some FS.Dir) →
  ∃ fs' : FS.t, fix_splits mapping c a fs = Ok fs' ∧
    ∀ sf text, sf ∈ split_files → fs !! (a // sf) = Some (FS.File text) →
      ∃ out, fs' !! (c // "sets" // sf) = Some (FS.File (Py.write_lines out)) ∧
        Py.write_lines out = String.concat "" (map (fun s => s +:+ Py.nl) out) ∧
        (Forall (fun s => Py.pieces Py.is_linebreak s = [s] ∧ Py.strip s = s ∧ s ≠ "") out →
         Py.stripped_splitlines (Py.write_lines out) = out) ∧
        out = sorted_set (omap (resolve mapping) (Py.stripped_lines text)) ∧
        out = sorted_set (omap (resolve mapping)
                (filter (fun line => is_Some (resolve mapping line)) (Py.stripped_lines text))) ∧
        StronglySorted String.le out ∧ NoDup out ∧
        (∀ s, s ∈ out ↔
              ∃ line, line ∈ Py.stripped_lines text ∧ resolve mapping line = Some s).
Proof.
  intros Hin Hsets Hout.
  assert (∀ sf, sf ∈ split_files → a // sf ≠ c // "sets") as Hne1.
  { intros sf Hsf. unfold split_files in Hsf.
    repeat (apply elem_of_cons in Hsf as [->|Hsf]); [path_neq..|].
    by apply elem_of_nil in Hsf. }
  assert (∀ sf sf', sf ∈ split_files → sf' ∈ split_files → sf ≠ sf' →
                    a // sf ≠ c // "sets" // sf') as Hne2.
  { intros sf sf' Hsf Hsf' Hne. unfold split_files in Hsf, Hsf'.
    repeat (apply elem_of_cons in Hsf as [->|Hsf]);
      [..|by apply elem_of_nil in Hsf];
      (repeat (apply elem_of_cons in Hsf' as [->|Hsf']);
       [..|by apply elem_of_nil in Hsf']); first [done|path_neq]. }
  assert ("train.txt" ∈ split_files) as Htrain by (unfold split_files; repeat constructor).
  assert ("val.txt" ∈ split_files) as Hval by (unfold split_files; repeat constructor).
  assert ("test.txt" ∈ split_files) as Htest by (unfold split_files; repeat constructor).
  unfold fix_splits, split_files. simpl.
  destruct (fix_split_file_step mapping c a fs "train.txt")
    as (fs1 & -> & Hw1 & Ho1 & Hs1); [auto..|]. simpl.
  destruct (fix_split_file_step mapping c a fs1 "val.txt")
    as (fs2 & -> & Hw2 & Ho2 & Hs2).
  { rewrite Ho1; [auto|auto|]. by apply Hne2. }
  { intros x. destruct Hs1 as [-> | ->]; [apply Hsets|done]. }
  { rewrite Ho1; [auto|apply sets_file_ne_sets|].
    intros Heq%sets_file_inj. discriminate. }
  simpl.
  destruct (fix_split_file_step mapping c a fs2 "test.txt")
    as (fs3 & -> & Hw3 & Ho3 & Hs3).
  { rewrite Ho2, Ho1; [auto|auto|by apply Hne2|auto|by apply Hne2]. }
  { intros x. destruct Hs2 as [-> | ->]; [|done].
    destruct Hs1 as [-> | ->]; [apply Hsets|done]. }
  { rewrite Ho2, Ho1; [auto|apply sets_file_ne_sets| |apply sets_file_ne_sets|];
      intros Heq%sets_file_inj; discriminate. }
  exists fs3. split; [done|].
  intros sf text Hsf Htext.
  destruct (split_output_spec mapping text) as (out & Hout_text & Hout_eq & Hrest).
  exists out.
  split; [|split; [apply LinesFacts.write_lines_concat|
           split; [apply LinesFacts.stripped_splitlines_write_lines|
           split; [done|split; [|done]]]]].
  - rewrite <- Hout_text. unfold split_files in Hsf.
    apply elem_of_cons in Hsf as [->|Hsf]; [|apply elem_of_cons in Hsf as [->|Hsf];
      [|apply elem_of_cons in Hsf as [->|Hsf]; [|by apply elem_of_nil in Hsf]]].
    + rewrite Ho3, Ho2; [by apply Hw1|apply sets_file_ne_sets| |apply sets_file_ne_sets|];
        intros Heq%sets_file_inj; discriminate.
    + rewrite Ho3; [|apply sets_file_ne_sets|intros Heq%sets_file_inj; discriminate].
      apply Hw2. rewrite Ho1; [done|auto|by apply Hne2].
    + apply Hw3. rewrite Ho2, Ho1; [done|auto|by apply Hne2|auto|by apply Hne2].
  - rewrite Hout_eq. unfold sorted_set. do 3 f_equal.
    pose proof (split_lines_resolved_only mapping (Py.stripped_lines text)) as Hf.
    by rewrite !map_lines_spec in Hf.
Qed.

End FixSplitsFacts.

(** ** Directory listings *)

Module FSFacts.

Lemma substring_all s : String.substring 0 (String.length s) s = s.
Proof. induction s as [|a s IH]; [done|]. simpl. by rewrite IH. Qed.

Lemma substring_app_r s t :
  String.substring (String.length s) (String.length (s +:+ t) - String.length s) (s +:+ t) = t.
Proof.
  induction s as [|a s IH].
  - rewrite PyFacts.app_nil_l. simpl. rewrite Nat.sub_0_r. apply substring_all.
  - rewrite PyFacts.app_cons. simpl. apply IH.
Qed.

Lemma nonempty_true s : Py.nonempty s = true ↔ s ≠ "".
Proof. by destruct s. Qed.

Lemma contains_false sub s : Py.contains sub s = false ↔ ¬ Py.occurs_in sub s.
Proof.
  rewrite <- PyFacts.contains_spec. by destruct (Py.contains sub s).
Qed.

(** [n] names an entry of [d] at path [p]. *)
Lemma entry_name_spec d p n :
  FS.entry_name d p = Some n ↔
  p = d // n ∧ n ≠ "" ∧ ¬ Py.occurs_in "/" n.
Proof.
  unfold FS.entry_name, Path.join.
  destruct (Py.startswith (d +:+ "/") p) eqn:Hpre.
  - apply PyFacts.startswith_spec in Hpre as [post ->].
    rewrite substring_app_r.
    destruct (Py.nonempty post) eqn:Hne; simpl.
    + destruct (Py.contains "/" post) eqn:Hc; simpl.
      * split; [done|]. intros (Hp & _ & Hno).
        rewrite <- PyFacts.app_assoc in Hp. apply (inj (String.app _)) in Hp as <-.
        apply contains_false in Hno. congruence.
      * split.
        -- intros [= <-]. rewrite PyFacts.app_assoc.
           split_and!; [done|by apply nonempty_true|by apply contains_false].
        -- intros (Hp & _ & _). rewrite <- PyFacts.app_assoc in Hp.
           by apply (inj (String.app _)) in Hp as <-.
    + split; [done|]. intros (Hp & Hn & _).
      rewrite <- PyFacts.app_assoc in Hp. apply (inj (String.app _)) in Hp as <-.
      apply nonempty_true in Hn. congruence.
  - split; [done|]. intros (-> & _).
    assert (Py.startswith (d +:+ "/") (d +:+ "/" +:+ n) = true) as Hs; [|congruence].
    apply PyFacts.startswith_spec. exists n. by rewrite PyFacts.app_assoc.
Qed.

(** What [glob] lists: the paths of the entries of [d] whose name ends in
    [suffix]. *)
Lemma elem_of_glob (fs : FS.t) d suffix p :
  p ∈ FS.glob fs d suffix ↔
  is_Some (fs !! p) ∧
  ∃ n, p = d // n ∧ n ≠ "" ∧ ¬ Py.occurs_in "/" n ∧ ∃ pre, n = pre +:+ suffix.
Proof.
  unfold FS.glob. rewrite list_elem_of_omap. split.
  - intros ([p' x] & Hin & Hsel). apply elem_of_map_to_list in Hin.
    destruct (FS.entry_name d p') as [n|] eqn:Hn; [|done].
    destruct (Py.endswith suffix n) eqn:Hend; [|done].
    injection Hsel as ->. apply entry_name_spec in Hn as (-> & Hne & Hno).
    apply PyFacts.endswith_spec in Hend.
    split; [eauto|]. exists n. eauto.
  - intros ([x Hx] & n & -> & Hne & Hno & Hend).
    exists (d // n, x). split; [by apply elem_of_map_to_list|].
    assert (FS.entry_name d (d // n) = Some n) as -> by (by apply entry_name_spec).
    apply PyFacts.endswith_spec in Hend. by rewrite Hend.
Qed.

End FSFacts.

(** ** Paths of directory entries *)

Module PathFacts.

Lemma split_on_nonnil c s : Py.split_on c s ≠ [].
Proof.
  destruct s as [|a s]; simpl; [done|].
  destruct (Ascii.eqb a c); [done|]. by destruct (Py.split_on c s).
Qed.

Lemma split_on_app c s t :
  Py.split_on c (s +:+ String c t) = (Py.split_on c s ++ Py.split_on c t)%list.
Proof.
  induction s as [|a s IH].
  - rewrite PyFacts.app_nil_l. simpl. by rewrite Ascii.eqb_refl.
  - rewrite PyFacts.app_cons. simpl. destruct (Ascii.eqb a c); [by rewrite IH|].
    rewrite IH. pose proof (split_on_nonnil c s).
    by destruct (Py.split_on c s).
Qed.

Lemma split_on_none c s :
  Py.contains (String c "") s = false → Py.split_on c s = [s].
Proof.
  induction s as [|a s IH]; [done|].
  cbn [Py.contains Py.startswith Py.split_on].
  destruct (Ascii.eqb_spec a c) as [->|Hne].
  - by rewrite Ascii.eqb_refl.
  - assert (Ascii.eqb c a = false) as -> by (apply Ascii.eqb_neq; congruence).
    simpl. intros Hs. by rewrite IH.
Qed.

(** The name of the entry [n] of a directory. *)
Lemma name_join d n :
  n ≠ "" → n ≠ "." → ¬ Py.occurs_in "/" n → Path.name (d // n) = n.
Proof.
  intros Hne Hdot Hno. unfold Path.name, Path.parts, Path.join.
  change ("/" +:+ n) with (String "/" n).
  rewrite split_on_app, (split_on_none "/" n) by (by apply FSFacts.contains_false).
  rewrite filter_app, filter_cons, decide_True by done.
  rewrite filter_nil. apply last_last.
Qed.

Lemma stem_join d n :
  n ≠ "" → n ≠ "." → ¬ Py.occurs_in "/" n → Path.stem (d // n) = Path.stem_of_name n.
Proof. intros. unfold Path.stem. by rewrite name_join. Qed.

End PathFacts.

(** ** The Converter: stems, categories *)

Module CocoFacts.
Import Coco.

Section CocoFacts.
Context {F : Type} `{PyNumber F}.
Variable image_size : string -> option (Z * Z).


Lemma elem_of_glob_stems (fs : FS.t) d suffix stem :
  suffix ≠ "" →
  stem ∈ glob_stems fs d suffix ↔
  ∃ n, is_Some (fs !! (d // n)) ∧ ¬ Py.occurs_in "/" n ∧
       (∃ pre, n = pre +:+ suffix) ∧ stem = Path.stem (d // n).
Proof.
  intros Hsuffix. unfold glob_stems.
  rewrite elem_of_list_to_set, list_elem_of_fmap.
  setoid_rewrite FSFacts.elem_of_glob. split.
  - intros (p & -> & Hp & n & -> & Hne & Hno & Hend). exists n. eauto.
  - intros (n & Hn & Hno & Hend & ->). exists (d // n). split; [done|].
    split; [done|]. exists n. split_and!; [done| |done..].
    destruct Hend as [pre ->]. intros Hemp.
    apply (f_equal String.length) in Hemp. rewrite PyFacts.length_app in Hemp.
    destruct suffix; [done|]. simpl in Hemp. lia.
Qed.

Lemma image_name_proper pre suffix :
  (4 ≤ String.length suffix)%nat → pre +:+ suffix ≠ "" ∧ pre +:+ suffix ≠ ".".
Proof.
  intros Hlen. split; intros Heq; apply (f_equal String.length) in Heq;
    rewrite PyFacts.length_app in Heq; simpl in Heq; lia.
Qed.

(** C7 (amended). When [sets/<split>.txt] does not exist, or holds no
    line that is not blank, reading the stems raises nothing and yields
    the stems of the entries of [images/] named [*.jpg], [*.JPG] or
    [*.png], in this spelling, and of no other entry. *)
Theorem image_stems_fallback (fs : FS.t) (category_root split : string) :
  let split_file := category_root // "sets" // (split +:+ ".txt") in
  let images_dir := category_root // "images" in
  (fs !! split_file = None ∨
   ∃ text, fs !! split_file = Some (FS.File text) ∧ Py.stripped_splitlines text = []) →
  ∃ stems : gset string,
    image_stems fs category_root split = Ok stems ∧
    ∀ stem, stem ∈ stems ↔
            ∃ n, image_entry fs images_dir n ∧ stem = Path.stem (images_dir // n).
Proof.
  intros split_file images_dir Hsplit.
  assert (_read_split_list fs split_file = Ok []) as Hread.
  { unfold _read_split_list, FS.exists_, FS.read.
    destruct Hsplit as [->|(text & -> & Hlines)]; [done|]. simpl. by rewrite Hlines. }
  unfold image_stems. fold split_file. fold images_dir. rewrite Hread. simpl.
  rewrite decide_True by done.
  eexists. split; [done|].
  intros stem. rewrite !elem_of_union, !elem_of_glob_stems by done.
  unfold image_entry. split.
  - intros [[(n & Hn & Hno & [pre Hpre] & ->)|(n & Hn & Hno & [pre Hpre] & ->)]
           |(n & Hn & Hno & [pre Hpre] & ->)];
      exists n; (split; [|done]); (split; [done|]); (split; [done|]); exists pre; auto.
  - intros (n & (Hn & Hno & pre & [Hpre|[Hpre|Hpre]]) & ->).
    + left. left. exists n. eauto.
    + left. right. exists n. eauto.
    + right. exists n. eauto.
Qed.

(** Without a split list the stems are the file names found under
    [images/] without their last suffix: the directory takes no part in
    them. *)
Lemma fallback_stems_by_name (fs : FS.t) (category_root split : string) :
  let split_file := category_root // "sets" // (split +:+ ".txt") in
  let images_dir := category_root // "images" in
  (fs !! split_file = None ∨
   ∃ text, fs !! split_file = Some (FS.File text) ∧ Py.stripped_splitlines text = []) →
  ∃ stems : gset string,
    image_stems fs category_root split = Ok stems ∧
    ∀ stem, stem ∈ stems ↔
            ∃ n, image_entry fs images_dir n ∧ stem = Path.stem_of_name n.
Proof.
  intros split_file images_dir Hsplit.
  assert (_read_split_list fs split_file = Ok []) as Hread.
  { unfold _read_split_list, FS.exists_, FS.read.
    destruct Hsplit as [->|(text & -> & Hlines)]; [done|]. simpl. by rewrite Hlines. }
  unfold image_stems. fold split_file. fold images_dir. rewrite Hread. simpl.
  rewrite decide_True by done.
  eexists. split; [done|].
  assert (∀ n pre suffix, (4 ≤ String.length suffix)%nat → ¬ Py.occurs_in "/" n →
                          n = pre +:+ suffix →
                          Path.stem (images_dir // n) = Path.stem_of_name n) as Hstem.
  { intros n pre suffix Hlen Hno ->.
    destruct (image_name_proper pre suffix Hlen). by apply PathFacts.stem_join. }
  intros stem. rewrite !elem_of_union, !elem_of_glob_stems by done.
  unfold image_entry. split.
  - intros [[(n & Hn & Hno & [pre Hpre] & ->)|(n & Hn & Hno & [pre Hpre] & ->)]
           |(n & Hn & Hno & [pre Hpre] & ->)];
      exists n; (split; [|eapply Hstem; [|done..]; simpl; lia]);
      (split; [done|]); (split; [done|]); exists pre; auto.
  - intros (n & (Hn & Hno & pre & [Hpre|[Hpre|Hpre]]) & ->).
    + left. left. exists n. split_and!; [done|done|by exists pre|].
      symmetry. eapply Hstem; [|done..]. simpl. lia.
    + left. right. exists n. split_and!; [done|done|by exists pre|].
      symmetry. eapply Hstem; [|done..]. simpl. lia.
    + right. exists n. split_and!; [done|done|by exists pre|].
      symmetry. eapply Hstem; [|done..]. simpl. lia.
Qed.

(** The singular of a category name. *)
Lemma category_singular_spec (category_name : string) :
  (∀ p, category_name = p +:+ "s" → category_singular category_name = p) ∧
  ((¬ ∃ p, category_name = p +:+ "s") → category_singular category_name = category_name).
Proof.
  unfold category_singular. split.
  - intros p ->.
    assert (Py.endswith "s" (p +:+ "s") = true) as ->.
    { apply PyFacts.endswith_spec. by exists p. }
    apply PyFacts.drop_last_app.
  - intros Hno. destruct (Py.endswith "s" category_name) eqn:Hend; [|done].
    apply PyFacts.endswith_spec in Hend. by destruct Hno.
Qed.

(** C9. A single-category export has one category, with id 1, named
    by the category name without one trailing [s], or by the category
    name itself when it does not end in [s]. *)
Theorem single_category (fs : FS.t) (category_root split category_name : string)
    (imgs : list image) (annotations : list (annotation F)) (cats : list category) :
  _collect_annotations_for_split image_size fs category_root split category_name
    = Ok (imgs, annotations, cats) →
  cats = [{| cat_id := 1; cat_name := category_singular category_name;
             cat_supercategory := "plant" |}] ∧
  (∀ p, category_name = p +:+ "s" → category_singular category_name = p) ∧
  ((¬ ∃ p, category_name = p +:+ "s") → category_singular category_name = category_name) ∧
  category_singular "backgrounds" = "background" ∧
  category_singular "oranges" = "orange".
Proof.
  intros Hrun. split; [|split; [apply category_singular_spec|
                        split; [apply category_singular_spec|done]]].
  unfold _collect_annotations_for_split in Hrun.
  destruct (image_stems fs category_root split) as [stems|e]; [|done].
  simpl in Hrun.
  destruct (collect_stems _ _ _ _ _) as [st|e]; [|done].
  simpl in Hrun. congruence.
Qed.

(** *** Identifiers of a single-category export *)

Lemma add_boxes_spec (st : collector) (boxes : list (CsvBox F)) :
  let st' := add_boxes st boxes in
  images st' = images st ∧
  image_id_counter st' = image_id_counter st ∧
  ann_id_counter st' = ann_id_counter st + Z.of_nat (length boxes) ∧
  map ann_id (anns st') =
    (map ann_id (anns st) ++ seqZ (ann_id_counter st) (Z.of_nat (length boxes)))%list ∧
  map ann_image_id (anns st') =
    (map ann_image_id (anns st) ++ replicate (length boxes) (image_id_counter st))%list ∧
  map ann_bbox (anns st') = (map ann_bbox (anns st) ++ map bbox_of boxes)%list.
Proof.
  revert st. induction boxes as [|box boxes IH]; intros st.
  - cbn [add_boxes fold_left length Z.of_nat replicate map]. rewrite Z.add_0_r, !app_nil_r. done.
  - cbn [add_boxes fold_left]. cbn zeta.
    match goal with |- context [fold_left ?f boxes ?s] =>
      change (fold_left f boxes s) with (add_boxes s boxes);
      specialize (IH s); cbn zeta in IH; cbn [images image_id_counter ann_id_counter anns] in IH;
      destruct IH as (-> & -> & -> & -> & -> & ->)
    end.
    rewrite !map_app. cbn [map length replicate].
    rewrite <- !app_assoc. cbn [app].
    split_and!; [done|done|lia|..|done|done].
    do 2 f_equal. rewrite (seqZ_cons _ (Z.of_nat (S _))) by lia.
    do 2 f_equal; lia.
Qed.

Lemma collect_stem_spec (fs : FS.t) root (st st' : collector) stem :
  collect_stem image_size fs root st stem = Ok st' →
  match find_image fs (root // "images") stem with
  | None => st' = st
  | Some img_path =>
      ∃ w h boxes,
        _image_size image_size fs img_path = Ok (w, h) ∧
        _parse_csv_boxes fs (root // "csv" // (stem +:+ ".csv")) = Ok boxes ∧
        images st' =
          (images st ++ [{| img_id := image_id_counter st;
                            img_file_name := Path.relative_to_parent root img_path;
                            img_width := w; img_height := h |}])%list ∧
        image_id_counter st' = image_id_counter st + 1 ∧
        ann_id_counter st' = ann_id_counter st + Z.of_nat (length boxes) ∧
        map ann_id (anns st') =
          (map ann_id (anns st) ++ seqZ (ann_id_counter st) (Z.of_nat (length boxes)))%list ∧
        map ann_image_id (anns st') =
          (map ann_image_id (anns st) ++ replicate (length boxes) (image_id_counter st))%list ∧
        map ann_bbox (anns st') = (map ann_bbox (anns st) ++ map bbox_of boxes)%list
  end.
Proof.
  unfold collect_stem.
  destruct (find_image fs (root // "images") stem) as [img_path|]; [|congruence].
  destruct (_image_size image_size fs img_path) as [[w h]|e]; [|done]. simpl.
  destruct (_parse_csv_boxes fs (root // "csv" // (stem +:+ ".csv"))) as [boxes|e]; [|done].
  simpl. intros [= <-]. exists w, h, boxes.
  match goal with |- context [add_boxes ?s boxes] =>
    pose proof (add_boxes_spec s boxes) as Hadd; cbn zeta in Hadd;
    cbn [images image_id_counter ann_id_counter anns] in Hadd;
    destruct Hadd as (Himg & Hic & Hac & Hids & Himgids & Hbb)
  end.
  cbn [images image_id_counter ann_id_counter anns].
  rewrite Himg, Hic, Hac, Hids, Himgids, Hbb. done.
Qed.

Lemma collect_stems_spec (fs : FS.t) root stems (st st' : collector) :
  collect_stems image_size fs root st stems = Ok st' →
  let found := resolved fs (root // "images") stems in
  ∃ boxes : list (list (CsvBox F)),
    Forall2 (fun '(stem, _) bs =>
               _parse_csv_boxes fs (root // "csv" // (stem +:+ ".csv")) = Ok bs)
            found boxes ∧
    map img_id (images st') =
      (map img_id (images st) ++ seqZ (image_id_counter st) (Z.of_nat (length found)))%list ∧
    map img_file_name (images st') =
      (map img_file_name (images st)
       ++ map (fun '(_, img_path) => Path.relative_to_parent root img_path) found)%list ∧
    image_id_counter st' = image_id_counter st + Z.of_nat (length found) ∧
    ann_id_counter st' = ann_id_counter st + Z.of_nat (length (concat boxes)) ∧
    map ann_id (anns st') =
      (map ann_id (anns st)
       ++ seqZ (ann_id_counter st) (Z.of_nat (length (concat boxes))))%list ∧
    map ann_image_id (anns st') =
      (map ann_image_id (anns st)
       ++ concat (imap (fun i bs => replicate (length bs) (image_id_counter st + Z.of_nat i))
                       boxes))%list ∧
    map ann_bbox (anns st') =
      (map ann_bbox (anns st) ++ concat (map (map bbox_of) boxes))%list.
Proof.
  revert st. induction stems as [|stem stems IH]; intros st; cbn [collect_stems].
  - intros [= <-]. exists []. cbn. rewrite !Z.add_0_r, !app_nil_r.
    split_and!; first [done|constructor].
  - destruct (collect_stem image_size fs root st stem) as [st1|e] eqn:Hstep; [|done].
    simpl. intros Hrest. apply collect_stem_spec in Hstep.
    apply IH in Hrest as (boxes & Hparse & Hids & Hnames & Hic & Hac & Haids & Himgids & Hbb).
    unfold resolved. cbn [omap list_omap].
    fold (resolved fs (root // "images") stems).
    destruct (find_image fs (root // "images") stem) as [img_path|].
    + destruct Hstep as (w & h & bs & _ & Hbs & Himgs1 & Hic1 & Hac1 & Haids1 & Himgids1 & Hbb1).
      exists (bs :: boxes). cbn [fmap option_fmap option_map].
      cbn [length map concat].
      rewrite Hids, Hnames, Hic, Hac, Haids, Himgids, Hbb.
      rewrite Himgs1, Hic1, Hac1, Haids1, Himgids1, Hbb1.
      rewrite !map_app. cbn [map img_id img_file_name].
      rewrite <- !app_assoc. cbn [app].
      rewrite length_app, !Nat2Z.inj_add, Nat2Z.inj_succ.
      split_and!.
      * by constructor.
      * do 2 f_equal. rewrite (seqZ_cons _ (Z.succ _)) by lia.
        do 2 f_equal; lia.
      * done.
      * lia.
      * lia.
      * f_equal. rewrite seqZ_app by lia. done.
      * f_equal. cbn [imap concat]. rewrite Z.add_0_r. do 2 f_equal.
        apply imap_ext. intros i bs' _. simpl. f_equal. lia.
      * done.
    + subst st1. exists boxes. cbn [fmap option_fmap option_map]. done.
Qed.

Lemma find_image_None (fs : FS.t) images_dir stem :
  find_image fs images_dir stem = None ↔
  fs !! (images_dir // (stem +:+ ".jpg")) = None ∧
  fs !! (images_dir // (stem +:+ ".JPG")) = None ∧
  fs !! (images_dir // (stem +:+ ".png")) = None.
Proof.
  unfold find_image, FS.exists_.
  destruct (fs !! (images_dir // (stem +:+ ".jpg"))) as [n1|] eqn:E1; simpl.
  - rewrite E1. simpl. rewrite E1. simpl. naive_solver.
  - destruct (fs !! (images_dir // (stem +:+ ".JPG"))) as [n2|] eqn:E2; simpl.
    + rewrite E2. simpl. naive_solver.
    + destruct (fs !! (images_dir // (stem +:+ ".png"))) as [n3|] eqn:E3; simpl;
        naive_solver.
Qed.

(** C4. In a single-category export the stems are visited in ascending
    order; the stems that have an image file ([found]) get the image ids
    1, 2, ... in this order, a stem without image file gets none; the
    annotation ids are 1, 2, ... in the order of the list; and the
    annotations of the boxes of the [i]-th image carry the image id [i]. *)
Theorem single_category_ids (fs : FS.t) (category_root split category_name : string)
    (imgs : list image) (annotations : list (annotation F)) (cats : list category) :
  _collect_annotations_for_split image_size fs category_root split category_name
    = Ok (imgs, annotations, cats) →
  ∃ (stems : gset string) (boxes : list (list (CsvBox F))),
    image_stems fs category_root split = Ok stems ∧
    let order := sorted stems in
    let found := resolved fs (category_root // "images") order in
    StronglySorted String.le order ∧ NoDup order ∧ (∀ s, s ∈ order ↔ s ∈ stems) ∧
    (∀ stem, find_image fs (category_root // "images") stem = None ↔
             fs !! (category_root // "images" // (stem +:+ ".jpg")) = None ∧
             fs !! (category_root // "images" // (stem +:+ ".JPG")) = None ∧
             fs !! (category_root // "images" // (stem +:+ ".png")) = None) ∧
    Forall2 (fun '(stem, _) bs =>
               _parse_csv_boxes fs (category_root // "csv" // (stem +:+ ".csv")) = Ok bs)
            found boxes ∧
    map img_id imgs = seqZ 1 (Z.of_nat (length found)) ∧
    map img_file_name imgs =
      map (fun '(_, img_path) => Path.relative_to_parent category_root img_path) found ∧
    map ann_id annotations = seqZ 1 (Z.of_nat (length annotations)) ∧
    map ann_image_id annotations =
      concat (imap (fun i bs => replicate (length bs) (1 + Z.of_nat i)) boxes) ∧
    map ann_bbox annotations = concat (map (map bbox_of) boxes).
Proof.
  unfold _collect_annotations_for_split.
  destruct (image_stems fs category_root split) as [stems|e]; [|done]. simpl.
  destruct (collect_stems _ _ _ _ _) as [st|e] eqn:Hrun; [|done]. simpl.
  intros [= <- <- <-].
  apply collect_stems_spec in Hrun
    as (boxes & Hparse & Hids & Hnames & _ & _ & Haids & Himgids & Hbb).
  cbn [images anns image_id_counter ann_id_counter map app] in *.
  exists stems, boxes. split; [done|]. cbn zeta.
  split_and!; try done.
  - apply sort_elements_sorted.
  - apply sort_elements_NoDup.
  - intros s. apply elem_of_sort_elements.
  - intros stem. apply find_image_None.
  - rewrite Haids. f_equal.
    apply (f_equal length) in Haids. rewrite length_map, length_seqZ in Haids. lia.
Qed.

End CocoFacts.

End CocoFacts.

(** ** The split files that the Reorganizer writes *)

Module ReorganizeSplitsRun.
Import ReorganizeSplits SplitRound.

Ltac fs_lookup :=
  repeat first
    [ rewrite lookup_insert_eq
    | rewrite lookup_insert_ne by (first [done | by apply not_eq_sym]) ].

Lemma group_line_append d line :
  group_line d line
  = append_to d (if is_orange line then "oranges" else "backgrounds") (Path.stem line).
Proof. unfold group_line. by destruct (is_orange line). Qed.

Lemma get_append_to d k v k' :
  Dict.get (append_to d k v) k' =
  if String.eqb k k' then Some (lines_of d k ++ [v])%list else Dict.get d k'.
Proof. unfold append_to, lines_of. by rewrite DictFacts.get_set. Qed.

(** The list of a category in the dictionary of the loop over the lines:
    no key without a line. *)
Lemma get_fold_group (orange : bool) lines d :
  Dict.get (fold_left group_line lines d) (if orange then "oranges" else "backgrounds") =
  match map Path.stem (filter (fun l => is_orange l = orange) lines) with
  | [] => Dict.get d (if orange then "oranges" else "backgrounds")
  | stems => Some (lines_of d (if orange then "oranges" else "backgrounds") ++ stems)%list
  end.
Proof.
  revert d. induction lines as [|line lines IH]; intros d; [done|].
  cbn [fold_left]. rewrite IH, filter_cons, group_line_append.
  rewrite get_append_to, ReorganizeSplitsFacts.lines_of_append_to.
  destruct (is_orange line) eqn:Ho, orange; simpl.
  - destruct (map Path.stem _); [done|]. by rewrite <- app_assoc.
  - done.
  - done.
  - destruct (map Path.stem _); [done|]. by rewrite <- app_assoc.
Qed.

Lemma get_group_lines (orange : bool) lines :
  Dict.get (group_lines lines) (if orange then "oranges" else "backgrounds") =
  match map Path.stem (filter (fun l => is_orange l = orange) lines) with
  | [] => None
  | stems => Some stems
  end.
Proof.
  unfold group_lines. rewrite get_fold_group.
  by destruct orange; destruct (map Path.stem _).
Qed.

(** Paths that the loops tell apart. *)
Lemma split_ne_sets a c sf : sf ∈ split_files → a // sf ≠ c // "sets".
Proof.
  intros Hsf. unfold split_files in Hsf.
  repeat (apply elem_of_cons in Hsf as [->|Hsf]); [path_neq..|].
  by apply elem_of_nil in Hsf.
Qed.

Lemma split_ne_other a c sf sf' :
  sf ∈ split_files → sf' ∈ split_files → sf ≠ sf' → a // sf ≠ c // "sets" // sf'.
Proof.
  intros Hsf Hsf' Hne. unfold split_files in Hsf, Hsf'.
  repeat (apply elem_of_cons in Hsf as [->|Hsf]);
    [..|by apply elem_of_nil in Hsf];
    (repeat (apply elem_of_cons in Hsf' as [->|Hsf']);
     [..|by apply elem_of_nil in Hsf']); first [done|path_neq].
Qed.

Lemma sets_ne c d : c ≠ d → c // "sets" ≠ d // "sets".
Proof. intros Hne Heq. by apply LinesFacts.join_inj_r in Heq. Qed.

Lemma sets_file_ne c d sf : c ≠ d → c // "sets" // sf ≠ d // "sets" // sf.
Proof. intros Hne Heq. by do 2 apply LinesFacts.join_inj_r in Heq. Qed.

Lemma mkdir_ok (fs : FS.t) p :
  (∀ x, fs !! p ≠ Some (FS.File x)) → FS.mkdir fs p = Ok (<[p := FS.Dir]> fs).
Proof.
  intros Hp. unfold FS.mkdir. destruct (fs !! p) as [[x|]|] eqn:E; [|done..].
  by destruct (Hp x).
Qed.

Lemma write_ok (fs : FS.t) p content :
  fs !! p ≠ Some FS.Dir → FS.write fs p content = Ok (<[p := FS.File content]> fs).
Proof. intros Hp. unfold FS.write. by destruct (fs !! p) as [[x|]|]. Qed.

Section Round.
Variables (all_path oranges_dir backgrounds_dir : string).
Hypothesis dirs_ne : oranges_dir ≠ backgrounds_dir.

(** The loop over the two categories for one split file. *)
Lemma write_category_splits_two category_lines sf (fs : FS.t) :
  sf ∈ split_files →
  (∀ x, fs !! (oranges_dir // "sets") ≠ Some (FS.File x)) →
  (∀ x, fs !! (backgrounds_dir // "sets") ≠ Some (FS.File x)) →
  fs !! (oranges_dir // "sets" // sf) ≠ Some FS.Dir →
  fs !! (backgrounds_dir // "sets" // sf) ≠ Some FS.Dir →
  ∃ fs' : FS.t,
    write_category_splits category_lines sf
      [("oranges", oranges_dir); ("backgrounds", backgrounds_dir)] fs = Ok fs' ∧
    fs' !! (oranges_dir // "sets" // sf) =
      match Dict.get category_lines "oranges" with
      | Some ls => Some (FS.File (Py.write_lines ls))
      | None => fs !! (oranges_dir // "sets" // sf)
      end ∧
    fs' !! (backgrounds_dir // "sets" // sf) =
      match Dict.get category_lines "backgrounds" with
      | Some ls => Some (FS.File (Py.write_lines ls))
      | None => fs !! (backgrounds_dir // "sets" // sf)
      end ∧
    untouched oranges_dir backgrounds_dir sf fs fs' ∧
    sets_kept oranges_dir fs fs' ∧ sets_kept backgrounds_dir fs fs'.
Proof.
  intros Hsf Hos Hbs Hof Hbf.
  pose proof (sets_ne _ _ dirs_ne) as E1.
  pose proof (sets_file_ne _ _ sf dirs_ne) as E2.
  pose proof (FixSplitsFacts.sets_file_ne_sets oranges_dir sf) as E3.
  pose proof (FixSplitsFacts.sets_file_ne_sets backgrounds_dir sf) as E4.
  pose proof (split_ne_sets (oranges_dir // "sets") backgrounds_dir sf Hsf) as E5.
  pose proof (split_ne_sets (backgrounds_dir // "sets") oranges_dir sf Hsf) as E6.
  unfold write_category_splits, untouched, sets_kept. simpl.
  destruct (Dict.get category_lines "oranges") as [lo|];
    destruct (Dict.get category_lines "backgrounds") as [lb|]; simpl.
  - rewrite (mkdir_ok fs) by done. simpl.
    rewrite write_ok by (by fs_lookup). simpl.
    rewrite mkdir_ok by (intros x; by fs_lookup). simpl.
    rewrite write_ok by (by fs_lookup).
    eexists. split; [done|]. split_and!.
    + by fs_lookup.
    + by fs_lookup.
    + intros p ? ? ? ?. by fs_lookup.
    + right. by fs_lookup.
    + right. by fs_lookup.
  - rewrite (mkdir_ok fs) by done. simpl.
    rewrite write_ok by (by fs_lookup).
    eexists. split; [done|]. split_and!.
    + by fs_lookup.
    + by fs_lookup.
    + intros p ? ? ? ?. by fs_lookup.
    + right. by fs_lookup.
    + left. by fs_lookup.
  - rewrite (mkdir_ok fs) by done. simpl.
    rewrite write_ok by (by fs_lookup).
    eexists. split; [done|]. split_and!.
    + by fs_lookup.
    + by fs_lookup.
    + intros p ? ? ? ?. by fs_lookup.
    + left. by fs_lookup.
    + right. by fs_lookup.
  - exists fs. split_and!; [done..|by left|by left].
Qed.

(** One round of the loop over the split files. *)
Lemma split_round_spec (fs : FS.t) sf :
  sf ∈ split_files →
  (fs !! (all_path // sf) = None ∨ ∃ text, fs !! (all_path // sf) = Some (FS.File text)) →
  (∀ x, fs !! (oranges_dir // "sets") ≠ Some (FS.File x)) →
  (∀ x, fs !! (backgrounds_dir // "sets") ≠ Some (FS.File x)) →
  fs !! (oranges_dir // "sets" // sf) ≠ Some FS.Dir →
  fs !! (backgrounds_dir // "sets" // sf) ≠ Some FS.Dir →
  ∃ fs' : FS.t,
    split_round all_path [("oranges", oranges_dir); ("backgrounds", backgrounds_dir)] fs sf
      = Ok fs' ∧
    fs' !! (oranges_dir // "sets" // sf) = expected fs all_path oranges_dir sf true ∧
    fs' !! (backgrounds_dir // "sets" // sf) = expected fs all_path backgrounds_dir sf false ∧
    untouched oranges_dir backgrounds_dir sf fs fs' ∧
    sets_kept oranges_dir fs fs' ∧ sets_kept backgrounds_dir fs fs'.
Proof.
  intros Hsf [Hnone|[text Htext]] Hos Hbs Hof Hbf;
    unfold split_round, expected, FS.exists_.
  - rewrite Hnone. simpl. exists fs. split_and!; [done..| |by left|by left].
    by intros p _ _ _ _.
  - rewrite Htext. simpl. unfold FS.read. rewrite Htext. simpl.
    destruct (write_category_splits_two (group_lines (Py.stripped_lines text)) sf fs)
      as (fs' & Hrun & Ho & Hb & Hrest); [done..|].
    exists fs'. split; [done|]. split_and!; [| |apply Hrest..].
    + rewrite Ho, (get_group_lines true). unfold category_split, stems_of.
      destruct (map Path.stem _) as [|s stems] eqn:E; [done|].
      by rewrite LinesFacts.write_lines_concat.
    + rewrite Hb, (get_group_lines false). unfold category_split, stems_of.
      destruct (map Path.stem _) as [|s stems] eqn:E; [done|].
      by rewrite LinesFacts.write_lines_concat.
Qed.

(** A round for one split file leaves the files of the others alone. *)
Lemma untouched_other a sf sf' (fs fs' : FS.t) :
  sf ∈ split_files → sf' ∈ split_files → sf' ≠ sf →
  untouched oranges_dir backgrounds_dir sf fs fs' → fs' !! (a // sf') = fs !! (a // sf').
Proof.
  intros Hsf Hsf' Hne Hun. apply Hun.
  - by apply split_ne_sets.
  - by apply split_ne_sets.
  - by apply split_ne_other.
  - by apply split_ne_other.
Qed.

Lemma expected_other d sf sf' orange (fs fs' : FS.t) :
  sf ∈ split_files → sf' ∈ split_files → sf' ≠ sf →
  untouched oranges_dir backgrounds_dir sf fs fs' →
  expected fs' all_path d sf' orange = expected fs all_path d sf' orange.
Proof.
  intros Hsf Hsf' Hne Hun. unfold expected.
  rewrite (untouched_other all_path sf sf' fs fs') by done.
  by rewrite (untouched_other (d // "sets") sf sf' fs fs') by done.
Qed.

Lemma sets_kept_no_file d (fs fs' : FS.t) :
  sets_kept d fs fs' →
  (∀ x, fs !! (d // "sets") ≠ Some (FS.File x)) →
  ∀ x, fs' !! (d // "sets") ≠ Some (FS.File x).
Proof. intros [-> | ->] Hd x; [apply Hd|done]. Qed.

(** The three rounds. *)
Lemma reorganize_splits_expected (fs : FS.t) :
  (∀ sf, sf ∈ split_files →
         fs !! (all_path // sf) = None ∨ ∃ text, fs !! (all_path // sf) = Some (FS.File text)) →
  (∀ x, fs !! (oranges_dir // "sets") ≠ Some (FS.File x)) →
  (∀ x, fs !! (backgrounds_dir // "sets") ≠ Some (FS.File x)) →
  (∀ sf, sf ∈ split_files →
         fs !! (oranges_dir // "sets" // sf) ≠ Some FS.Dir ∧
         fs !! (backgrounds_dir // "sets" // sf) ≠ Some FS.Dir) →
  ∃ fs' : FS.t,
    reorganize_splits all_path [("oranges", oranges_dir); ("backgrounds", backgrounds_dir)] fs
      = Ok fs' ∧
    ∀ sf, sf ∈ split_files →
      fs' !! (oranges_dir // "sets" // sf) = expected fs all_path oranges_dir sf true ∧
      fs' !! (backgrounds_dir // "sets" // sf) = expected fs all_path backgrounds_dir sf false.
Proof.
  intros Hin Hos Hbs Hout.
  assert ("train.txt" ∈ split_files) as Htrain by (unfold split_files; repeat constructor).
  assert ("val.txt" ∈ split_files) as Hval by (unfold split_files; repeat constructor).
  assert ("test.txt" ∈ split_files) as Htest by (unfold split_files; repeat constructor).
  change (reorganize_splits all_path
            [("oranges", oranges_dir); ("backgrounds", backgrounds_dir)] fs)
    with (fs2 ← (fs1 ← split_round all_path
                         [("oranges", oranges_dir); ("backgrounds", backgrounds_dir)]
                         fs "train.txt";
                 split_round all_path
                   [("oranges", oranges_dir); ("backgrounds", backgrounds_dir)] fs1 "val.txt");
          split_round all_path
            [("oranges", oranges_dir); ("backgrounds", backgrounds_dir)] fs2 "test.txt").
  destruct (split_round_spec fs "train.txt")
    as (fs1 & -> & Ho1 & Hb1 & Hun1 & Hso1 & Hsb1);
    [done|by apply Hin|done|done|by apply Hout|by apply Hout|].
  simpl.
  destruct (split_round_spec fs1 "val.txt")
    as (fs2 & -> & Ho2 & Hb2 & Hun2 & Hso2 & Hsb2).
  { done. }
  { rewrite (untouched_other all_path "train.txt" "val.txt" fs fs1) by done. by apply Hin. }
  { by eapply sets_kept_no_file. }
  { by eapply sets_kept_no_file. }
  { rewrite (untouched_other (oranges_dir // "sets") "train.txt" "val.txt" fs fs1) by done.
    by apply Hout. }
  { rewrite (untouched_other (backgrounds_dir // "sets") "train.txt" "val.txt" fs fs1) by done.
    by apply Hout. }
  simpl.
  destruct (split_round_spec fs2 "test.txt")
    as (fs3 & -> & Ho3 & Hb3 & Hun3 & Hso3 & Hsb3).
  { done. }
  { rewrite (untouched_other all_path "val.txt" "test.txt" fs1 fs2) by done.
    rewrite (untouched_other all_path "train.txt" "test.txt" fs fs1) by done. by apply Hin. }
  { eapply sets_kept_no_file; [done|]. by eapply sets_kept_no_file. }
  { eapply sets_kept_no_file; [done|]. by eapply sets_kept_no_file. }
  { rewrite (untouched_other (oranges_dir // "sets") "val.txt" "test.txt" fs1 fs2) by done.
    rewrite (untouched_other (oranges_dir // "sets") "train.txt" "test.txt" fs fs1) by done.
    by apply Hout. }
  { rewrite (untouched_other (backgrounds_dir // "sets") "val.txt" "test.txt" fs1 fs2) by done.
    rewrite (untouched_other (backgrounds_dir // "sets") "train.txt" "test.txt" fs fs1)
      by done.
    by apply Hout. }
  exists fs3. split; [done|].
  intros sf Hsf. unfold split_files in Hsf.
  apply elem_of_cons in Hsf as [->|Hsf]; [|apply elem_of_cons in Hsf as [->|Hsf];
    [|apply elem_of_cons in Hsf as [->|Hsf]; [|by apply elem_of_nil in Hsf]]].
  - rewrite (untouched_other (oranges_dir // "sets") "test.txt" "train.txt" fs2 fs3) by done.
    rewrite (untouched_other (oranges_dir // "sets") "val.txt" "train.txt" fs1 fs2) by done.
    rewrite (untouched_other (backgrounds_dir // "sets") "test.txt" "train.txt" fs2 fs3)
      by done.
    rewrite (untouched_other (backgrounds_dir // "sets") "val.txt" "train.txt" fs1 fs2)
      by done.
    done.
  - rewrite (untouched_other (oranges_dir // "sets") "test.txt" "val.txt" fs2 fs3) by done.
    rewrite (untouched_other (backgrounds_dir // "sets") "test.txt" "val.txt" fs2 fs3)
      by done.
    rewrite Ho2, Hb2.
    by rewrite !(expected_other _ "train.txt" "val.txt" _ fs fs1) by done.
  - rewrite Ho3, Hb3.
    rewrite !(expected_other _ "val.txt" "test.txt" _ fs1 fs2) by done.
    by rewrite !(expected_other _ "train.txt" "test.txt" _ fs fs1) by done.
Qed.

End Round.

(** C10. The loop over the split files of [all] ends without an
    exception when these are files or absent and nothing of the wrong kind
    is in the way.  A line of a split file goes to [oranges] exactly when
    it contains [CREC_HLB], [UF.Citrus_HLB] or [image (], every other line
    goes to [backgrounds], whatever the directories hold: after the run
    the file [sets/<split>] of each of the two categories holds the stems
    of its lines of [all/<split>], in the order of that file, each
    followed by a line feed.  A category without a line in a split file,
    and every category when the split file is absent, keeps what was at
    that path before. *)
Theorem reorganize_splits_files (all_path oranges_dir backgrounds_dir : string) (fs : FS.t) :
  oranges_dir ≠ backgrounds_dir →
  (∀ sf, sf ∈ split_files →
         fs !! (all_path // sf) = None ∨ ∃ text, fs !! (all_path // sf) = Some (FS.File text)) →
  (∀ x, fs !! (oranges_dir // "sets") ≠ Some (FS.File x)) →
  (∀ x, fs !! (backgrounds_dir // "sets") ≠ Some (FS.File x)) →
  (∀ sf, sf ∈ split_files →
         fs !! (oranges_dir // "sets" // sf) ≠ Some FS.Dir ∧
         fs !! (backgrounds_dir // "sets" // sf) ≠ Some FS.Dir) →
  (∀ line, is_orange line = true ↔
           Py.occurs_in "CREC_HLB" line ∨ Py.occurs_in "UF.Citrus_HLB" line
           ∨ Py.occurs_in "image (" line) ∧
  ∃ fs' : FS.t,
    reorganize_splits all_path [("oranges", oranges_dir); ("backgrounds", backgrounds_dir)] fs
      = Ok fs' ∧
    ∀ sf, sf ∈ split_files →
      (fs !! (all_path // sf) = None →
       fs' !! (oranges_dir // "sets" // sf) = fs !! (oranges_dir // "sets" // sf) ∧
       fs' !! (backgrounds_dir // "sets" // sf) = fs !! (backgrounds_dir // "sets" // sf)) ∧
      (∀ text, fs !! (all_path // sf) = Some (FS.File text) →
         let lines := Py.stripped_lines text in
         let oranges := map Path.stem (filter (fun l => is_orange l = true) lines) in
         let backgrounds := map Path.stem (filter (fun l => is_orange l = false) lines) in
         fs' !! (oranges_dir // "sets" // sf) =
           match oranges with
           | [] => fs !! (oranges_dir // "sets" // sf)
           | _ => Some (FS.File (String.concat "" (map (fun s => s +:+ Py.nl) oranges)))
           end ∧
         fs' !! (backgrounds_dir // "sets" // sf) =
           match backgrounds with
           | [] => fs !! (backgrounds_dir // "sets" // sf)
           | _ => Some (FS.File (String.concat "" (map (fun s => s +:+ Py.nl) backgrounds)))
           end).
Proof.
  intros Hne Hin Hos Hbs Hout. split; [apply ReorganizeSplitsFacts.is_orange_spec|].
  destruct (reorganize_splits_expected all_path oranges_dir backgrounds_dir Hne fs)
    as (fs' & Hrun & Hall); [done..|].
  exists fs'. split; [done|].
  intros sf Hsf. destruct (Hall sf Hsf) as [Ho Hb]. unfold expected in Ho, Hb. split.
  - intros Hnone. by rewrite Hnone in Ho, Hb.
  - intros text Htext. rewrite Htext in Ho, Hb. simpl. by rewrite Ho, Hb.
Qed.

End ReorganizeSplitsRun.

(** ** CSV files *)

Module CsvFacts.

Lemma plain_app s t : Csv.plain (s +:+ t) = Csv.plain s && Csv.plain t.
Proof.
  induction s as [|a s IH]; [done|].
  rewrite PyFacts.app_cons. simpl. by rewrite IH, andb_assoc.
Qed.

Lemma plain_char_not_eol c :
  Csv.plain_char c = true → Csv.is_lf c = false ∧ Csv.is_cr c = false.
Proof.
  unfold Csv.plain_char, Csv.is_lf, Csv.is_cr.
  destruct (nat_of_ascii c =? 10)%nat, (nat_of_ascii c =? 13)%nat;
    rewrite ?orb_true_r; simpl; auto.
Qed.

Lemma plain_char_not_comma c : Csv.plain_char c = true → Ascii.eqb c "," = false.
Proof.
  unfold Csv.plain_char. intros Hp. apply Ascii.eqb_neq. intros ->. done.
Qed.

Lemma no_eol_app s t : Csv.no_eol (s +:+ t) = Csv.no_eol s && Csv.no_eol t.
Proof.
  induction s as [|a s IH]; [done|].
  rewrite PyFacts.app_cons. simpl. by rewrite IH, !andb_assoc.
Qed.

Lemma plain_no_eol s : Csv.plain s = true → Csv.no_eol s = true.
Proof.
  induction s as [|c s IH]; [done|]. simpl.
  intros [Hc Hs]%andb_true_iff.
  destruct (plain_char_not_eol c Hc) as [-> ->]. simpl. auto.
Qed.

(** A line and its line feed before the rest of the file. *)
Lemma lines_line l t :
  Csv.no_eol l = true → Csv.lines (l +:+ Py.nl +:+ t) = l :: Csv.lines t.
Proof.
  induction l as [|c l IH]; [done|]. rewrite PyFacts.app_cons.
  cbn [Csv.no_eol Csv.lines].
  intros [[Hlf Hcr]%andb_true_iff Hl]%andb_true_iff.
  apply negb_true_iff in Hlf, Hcr. rewrite Hlf, Hcr. by rewrite IH.
Qed.

Lemma record_nonempty l : l ≠ "" → Csv.record l = Py.split_on "," l.
Proof. by destruct l. Qed.

Lemma split_plain_last f : Csv.plain f = true → Py.split_on "," f = [f].
Proof.
  intros Hf. induction f as [|c f IH]; [done|].
  simpl in Hf. apply andb_true_iff in Hf as [Hc Hf].
  simpl. rewrite (plain_char_not_comma c Hc). by rewrite IH.
Qed.

(** A plain field before a comma. *)
Lemma split_plain f t :
  Csv.plain f = true →
  Py.split_on "," (f +:+ "," +:+ t) = f :: Py.split_on "," t.
Proof.
  intros Hf. change ("," +:+ t) with (String "," t).
  by rewrite PathFacts.split_on_app, split_plain_last.
Qed.

(** Decimal numerals are plain and not empty. *)
Lemma pretty_N_char_plain x : Csv.plain_char (pretty_N_char x) = true.
Proof. unfold pretty_N_char. by repeat case_match. Qed.

Lemma pretty_N_go_plain x s :
  Csv.plain s = true → Csv.plain (pretty_N_go x s) = true.
Proof.
  revert s. induction (N.lt_wf_0 x) as [x _ IH]; intros s Hs.
  destruct (decide (x = 0)%N) as [->|Hx].
  - by rewrite pretty_N_go_0.
  - rewrite pretty_N_go_step by lia. apply IH.
    + apply N.div_lt; lia.
    + simpl. by rewrite pretty_N_char_plain.
Qed.

Lemma pretty_N_go_nonempty x s : s ≠ "" → pretty_N_go x s ≠ "".
Proof.
  revert s. induction (N.lt_wf_0 x) as [x _ IH]; intros s Hs.
  destruct (decide (x = 0)%N) as [->|Hx].
  - by rewrite pretty_N_go_0.
  - rewrite pretty_N_go_step by lia. apply IH; [apply N.div_lt; lia|done].
Qed.

Lemma pretty_nat_plain (n : nat) : Csv.plain (pretty n) = true.
Proof.
  unfold pretty, pretty_nat, pretty, pretty_N. case_decide; [done|].
  by apply pretty_N_go_plain.
Qed.

Lemma pretty_nat_nonempty (n : nat) : pretty n ≠ "".
Proof.
  unfold pretty, pretty_nat, pretty, pretty_N. case_decide; [done|].
  rewrite pretty_N_go_step by lia. by apply pretty_N_go_nonempty.
Qed.

End CsvFacts.

(** ** The Reorganizer: from the JSON boxes to the CSV boxes *)

Module ReorganizeFacts.
Import Reorganize.

Section RoundTrip.
Context {F : Type} `{PyNumber F}.

Lemma row_line_record item sx sy sw sh label :
  item ≠ "" →
  Csv.plain item = true → Csv.plain sx = true → Csv.plain sy = true →
  Csv.plain sw = true → Csv.plain sh = true → Csv.plain label = true →
  Csv.no_eol (row_line item sx sy sw sh label) = true ∧
  Csv.record (row_line item sx sy sw sh label) = [item; sx; sy; sw; sh; label].
Proof.
  intros Hne Hi Hx Hy Hw Hh Hl. unfold row_line. split.
  - rewrite !CsvFacts.no_eol_app.
    rewrite (CsvFacts.plain_no_eol item), (CsvFacts.plain_no_eol sx),
      (CsvFacts.plain_no_eol sy), (CsvFacts.plain_no_eol sw),
      (CsvFacts.plain_no_eol sh), (CsvFacts.plain_no_eol label) by done.
    done.
  - rewrite CsvFacts.record_nonempty by (by destruct item).
    rewrite !CsvFacts.split_plain by done. by rewrite CsvFacts.split_plain_last.
Qed.

(** The box that the Converter reads from the record of a data row. *)
Lemma row_box_of_record item sx sy sw sh label (box : Coco.CsvBox F) :
  Py.nonempty sx = true → Py.nonempty sy = true →
  Py.nonempty sw = true → Py.nonempty sh = true →
  float_of_str sx = Some (Coco.x box) → float_of_str sy = Some (Coco.y box) →
  float_of_str sw = Some (Coco.width box) → float_of_str sh = Some (Coco.height box) →
  Coco.row_box (Csv.dict_row fieldnames [item; sx; sy; sw; sh; label]) = Ok (Some box).
Proof.
  intros Nx Ny Nw Nh Fx Fy Fw Fh.
  assert (Coco.lower_row (Csv.dict_row fieldnames [item; sx; sy; sw; sh; label])
          = Ok [("#item", Some item); ("x", Some sx); ("y", Some sy);
                ("width", Some sw); ("height", Some sh); ("label", Some label)]) as Hrow.
  { vm_compute. reflexivity. }
  unfold Coco.row_box. rewrite Hrow.
  cbn -[Py.nonempty float_of_str].
  rewrite Nx, Ny, Nw, Nh, Fx, Fy, Fw, Fh. by destruct box.
Qed.

Lemma csv_row_text idx (ann : json_annotation F) (box : Coco.CsvBox F) :
  annotation_box ann box →
  ∃ label, Csv.plain label = true ∧
    csv_row idx ann =
      Ok (row_line (pretty idx) (str_of_number (Coco.x box)) (str_of_number (Coco.y box))
                   (str_of_number (Coco.width box)) (str_of_number (Coco.height box)) label
          +:+ Py.nl).
Proof.
  intros (rest & c & Hbbox & Hcat & _). unfold csv_row. rewrite Hbbox, Hcat.
  exists (pretty (if decide (c ≠ 0) then 1 else 0)). split.
  - by case_decide.
  - unfold row_line. by rewrite !PyFacts.app_assoc.
Qed.

(** The rows of well-formed entries: one record per entry, and the
    Converter reads the boxes back from them. *)
Lemma csv_rows_round_trip (entries : list (json_annotation F))
    (boxes : list (Coco.CsvBox F)) idx :
  Forall2 annotation_box entries boxes →
  ∃ text, csv_rows idx entries = (text, None) ∧
    length (Csv.reader text) = length entries ∧
    Coco.rows_boxes (map (Csv.dict_row fieldnames)
                         (filter (fun r => r ≠ []) (Csv.reader text))) = Ok boxes.
Proof.
  intros Hall. revert idx.
  induction Hall as [|ann box entries boxes Hbox Hall IH]; intros idx.
  - exists "". done.
  - destruct (csv_row_text idx ann box Hbox) as (label & Hlabel & Hrow).
    destruct (IH (S idx)) as (text & Htext & Hlen & Hboxes).
    destruct Hbox as (rest & c & _ & _ & (Qx & Nx & Fx) & (Qy & Ny & Fy)
                      & (Qw & Nw & Fw) & (Qh & Nh & Fh)).
    destruct (row_line_record (pretty idx) (str_of_number (Coco.x box))
                (str_of_number (Coco.y box)) (str_of_number (Coco.width box))
                (str_of_number (Coco.height box)) label) as [Heol Hrec];
      [apply CsvFacts.pretty_nat_nonempty|apply CsvFacts.pretty_nat_plain|done..|].
    cbn [csv_rows]. rewrite Hrow, Htext. eexists. split; [done|].
    unfold Csv.reader in *. rewrite PyFacts.app_assoc, CsvFacts.lines_line by done.
    cbn [map length]. rewrite Hrec, Hlen. split; [done|].
    rewrite filter_cons, decide_True by done.
    cbn [map Coco.rows_boxes].
    rewrite (row_box_of_record _ _ _ _ _ _ box) by done.
    simpl. by rewrite Hboxes.
Qed.

(** C2 (amended). For a JSON whose [annotations] list has N well-formed entries
    (a [category_id], and a [bbox] of at least four numbers that come
    back from their CSV fields), [json_to_csv] raises nothing and writes
    the header and N data rows, and the Converter reads from this file
    N boxes, in the order of the entries, whose [x], [y], [width] and
    [height] are the first four numbers of each [bbox]. *)
Theorem csv_round_trip (json_data : json_data F) (entries : list (json_annotation F))
    (boxes : list (Coco.CsvBox F)) (csv_path : string) (fs : FS.t) :
  annotations json_data = Some entries →
  Forall2 annotation_box entries boxes →
  fs !! csv_path ≠ Some FS.Dir →
  ∃ (fs' : FS.t) text rows,
    json_to_csv json_data csv_path fs = (fs', None) ∧
    fs' !! csv_path = Some (FS.File text) ∧
    Csv.reader text = fieldnames :: rows ∧
    length rows = length entries ∧
    length boxes = length entries ∧
    Coco._parse_csv_boxes fs' csv_path = Ok boxes.
Proof.
  intros Hentries Hall Hdir.
  assert (∀ content, FS.write fs csv_path content = Ok (<[csv_path := FS.File content]> fs))
    as Hwrite.
  { intros content. unfold FS.write. by destruct (fs !! csv_path) as [[?|]|]. }
  destruct (csv_rows_round_trip entries boxes 0 Hall) as (text & Htext & Hlen & Hboxes).
  assert (Csv.reader (header +:+ text) = fieldnames :: Csv.reader text) as Hreader.
  { unfold Csv.reader, header. by rewrite PyFacts.app_assoc, CsvFacts.lines_line. }
  exists (<[csv_path := FS.File (header +:+ text)]> fs), (header +:+ text), (Csv.reader text).
  split_and!.
  - unfold json_to_csv. rewrite Hentries. simpl.
    destruct entries as [|ann entries].
    + simpl in Htext. injection Htext as <-. by rewrite Hwrite, PyFacts.app_nil_r.
    + rewrite Htext. by rewrite Hwrite.
  - by rewrite lookup_insert_eq.
  - done.
  - done.
  - symmetry. by eapply Forall2_length.
  - unfold Coco._parse_csv_boxes, FS.exists_, FS.read.
    rewrite lookup_insert_eq. simpl. rewrite Hreader.
    unfold Coco.parse_records, Csv.dict_reader. done.
Qed.

End RoundTrip.

End ReorganizeFacts.

(** ** The Converter: rows of a CSV file *)

Module RowFacts.
Import Coco.

Section RowFacts.
Context {F : Type} `{PyNumber F}.

(** A row has surplus fields exactly when its record is longer than the
    header. *)
Lemma dict_row_restkey fieldnames record :
  Csv.restkey (Csv.dict_row fieldnames record) = None ↔
  (length record ≤ length fieldnames)%nat.
Proof.
  unfold Csv.dict_row.
  destruct (Nat.ltb_spec (length fieldnames) (length record)); simpl.
  - split; [done|lia].
  - split; [lia|done].
Qed.

(** What [get] returns: the number of the first of the keys whose field
    is there, is not empty and is read by [float]. *)
Lemma get_Some (row : Dict.t (option string)) keys f :
  get row keys = Some f ↔
  ∃ pre key post v,
    keys = (pre ++ key :: post)%list ∧
    Dict.get row key = Some (Some v) ∧ v ≠ "" ∧ float_of_str v = Some f ∧
    (∀ k, k ∈ pre → get row [k] = None).
Proof.
  induction keys as [|key keys IH].
  - simpl. split; [done|]. intros (pre & k & post & v & Hk & _). by destruct pre.
  - assert (get row (key :: keys) =
            match get row [key] with Some g => Some g | None => get row keys end) as ->.
    { simpl. destruct (Dict.get row key) as [[v|]|]; [|done..].
      destruct (Py.nonempty v); [|done]. by destruct (float_of_str v). }
    destruct (get row [key]) as [g|] eqn:Hkey.
    + split.
      * intros [= ->]. simpl in Hkey.
        destruct (Dict.get row key) as [[v|]|] eqn:Hget; [|done..].
        destruct (Py.nonempty v) eqn:Hne; [|done].
        destruct (float_of_str v) as [g|] eqn:Hfloat; [|done].
        injection Hkey as ->.
        exists [], key, keys, v. split_and!; [done|done|by destruct v|done|].
        intros k Hk. by apply elem_of_nil in Hk.
      * intros (pre & k & post & v & Hk & Hget & Hv & Hfloat & Hpre).
        destruct pre as [|k0 pre]; simplify_eq/=.
        -- rewrite Hget in Hkey. destruct v; [done|]. simpl in Hkey.
           rewrite Hfloat in Hkey. congruence.
        -- specialize (Hpre k0 ltac:(left)). simpl in Hpre. congruence.
    + rewrite IH. split.
      * intros (pre & k & post & v & -> & Hget & Hv & Hfloat & Hpre).
        exists (key :: pre), k, post, v. split_and!; [done..|].
        intros k' [->|Hk']%elem_of_cons; auto.
      * intros (pre & k & post & v & Hk & Hget & Hv & Hfloat & Hpre).
        destruct pre as [|k0 pre]; simplify_eq/=.
        -- rewrite Hget in Hkey. destruct v; [done|]. simpl in Hkey.
           rewrite Hfloat in Hkey. congruence.
        -- exists pre, k, post, v. split_and!; [done..|].
           intros k' Hk'. apply Hpre. by right.
Qed.

(** A row without surplus fields never raises, and it contributes a box
    exactly when [x], [y], [w] and [h] all resolve to a number. *)
Lemma row_box_no_surplus (raw_row : Csv.row) :
  Csv.restkey raw_row = None →
  ∃ row, lower_row raw_row = Ok row ∧
    (∀ box, row_box raw_row = Ok (Some box) ↔
            get row ["x"; "xc"; "x_center"] = Some (x box) ∧
            get row ["y"; "yc"; "y_center"] = Some (y box) ∧
            get row ["w"; "width"; "dx"] = Some (width box) ∧
            get row ["h"; "height"; "dy"] = Some (height box)) ∧
    (row_box raw_row = Ok None ↔
     get row ["x"; "xc"; "x_center"] = None ∨ get row ["y"; "yc"; "y_center"] = None ∨
     get row ["w"; "width"; "dx"] = None ∨ get row ["h"; "height"; "dy"] = None).
Proof.
  intros Hrest. unfold row_box, lower_row. rewrite Hrest.
  eexists. split; [done|]. cbn [mbind result_bind bind].
  destruct (get _ ["x"; "xc"; "x_center"]) as [vx|];
    destruct (get _ ["y"; "yc"; "y_center"]) as [vy|];
    destruct (get _ ["w"; "width"; "dx"]) as [vw|];
    destruct (get _ ["h"; "height"; "dy"]) as [vh|];
    (split; [intros [bx by_ bw bh]; simpl; split; [intros [= -> -> -> ->]|intros (? & ? & ? & ?)];
             by simplify_eq|]);
    split; try done; try (intros [?|[?|[?|?]]]; done); auto.
Qed.

(** The rows of a file no record of which is longer than the header are
    all read: the parse does not raise. *)
Lemma rows_boxes_no_surplus (rows : list Csv.row) :
  Forall (fun raw_row => Csv.restkey raw_row = None) rows →
  ∃ boxes, rows_boxes rows = Ok boxes.
Proof.
  induction 1 as [|raw_row rows Hrow _ [boxes IH]]; [by exists []|].
  destruct (row_box_no_surplus raw_row Hrow) as (row & Hlower & _).
  simpl. unfold row_box. rewrite Hlower. cbn [mbind result_bind bind].
  rewrite IH.
  destruct (get row ["x"; "xc"; "x_center"]), (get row ["y"; "yc"; "y_center"]),
    (get row ["w"; "width"; "dx"]), (get row ["h"; "height"; "dy"]);
    simpl; eauto.
Qed.

Lemma parse_records_no_surplus fieldnames (records : list (list string)) :
  Forall (fun record => (length record ≤ length fieldnames)%nat) records →
  ∃ boxes, parse_records (F := F) (fieldnames :: records) = Ok boxes.
Proof.
  intros Hall. unfold parse_records, Csv.dict_reader.
  apply rows_boxes_no_surplus. apply Forall_fmap.
  apply Forall_forall. intros record Hin.
  apply list_elem_of_filter in Hin as [_ Hin].
  rewrite Forall_forall in Hall. cbn. apply dict_row_restkey. auto.
Qed.

End RowFacts.

End RowFacts.

(** ** The Converter: merged exports *)

Module MergeFacts.
Import Coco.

Section MergeFacts.
Context {F : Type} `{PyNumber F}.

Lemma seqZ_snoc (n : nat) : seqZ 1 (Z.of_nat (S n)) = (seqZ 1 (Z.of_nat n) ++ [1 + Z.of_nat n])%list.
Proof. apply seqZ_S. Qed.

Lemma merge_images_spec img_list (st st' : merger (F := F)) (id_map id_map' : gmap Z Z) :
  merge_images img_list st id_map = (st', id_map') →
  numbered st →
  (∀ k v, id_map !! k = Some v → 1 ≤ v < next_image_id st) →
  numbered st' ∧
  m_anns st' = m_anns st ∧
  length (m_images st') = (length (m_images st) + length img_list)%nat ∧
  map img_file_name (m_images st')
    = (map img_file_name (m_images st) ++ map img_file_name img_list)%list ∧
  (∀ k v, id_map' !! k = Some v → 1 ≤ v < next_image_id st') ∧
  (∀ k, is_Some (id_map !! k) ∨ k ∈ map img_id img_list → is_Some (id_map' !! k)).
Proof.
  revert st id_map. induction img_list as [|img img_list IH]; intros st id_map.
  - simpl. intros [= <- <-] Hnum Hmap. rewrite Nat.add_0_r, app_nil_r.
    split_and!; try done.
    intros k [Hk|Hk]; [done|]. by apply elem_of_nil in Hk.
  - cbn [merge_images]. intros Hrun Hnum Hmap.
    destruct Hnum as (Hids & Hnext & Haids & Hanext & Hrefs).
    apply IH in Hrun as (Hnum' & Hanns & Hlen & Hnames & Hmap' & Hdom).
    + cbn [m_images m_anns next_image_id next_ann_id] in *.
      rewrite length_app in Hlen. cbn [length] in Hlen.
      rewrite map_app in Hnames. cbn [map img_file_name] in Hnames.
      rewrite <- app_assoc in Hnames. cbn [app] in Hnames.
      split_and!; [done|done|simpl; lia|done|done|].
      intros k [Hk|Hk].
      * apply Hdom. left. destruct (decide (img_id img = k)) as [<-|Hne].
        -- by rewrite lookup_insert_eq.
        -- by rewrite lookup_insert_ne.
      * cbn [map] in Hk. apply elem_of_cons in Hk as [->|Hk].
        -- apply Hdom. left. by rewrite lookup_insert_eq.
        -- apply Hdom. by right.
    + unfold numbered. cbn [m_images m_anns next_image_id next_ann_id].
      rewrite map_app, length_app. cbn [map length img_id].
      rewrite Nat.add_1_r, seqZ_snoc, Hids, Hnext.
      split_and!; [done|lia|done|done|].
      eapply Forall_impl; [exact Hrefs|]. intros a Ha. simpl in Ha. lia.
    + cbn [next_image_id]. intros k v Hkv.
      destruct (decide (img_id img = k)) as [<-|Hne].
      * rewrite lookup_insert_eq in Hkv. injection Hkv as <-.
        rewrite Hnext. lia.
      * rewrite lookup_insert_ne in Hkv by done. apply Hmap in Hkv. lia.
Qed.

Lemma merge_anns_spec ann_list (id_map : gmap Z Z) (category_to_cat : gmap string Z)
    category (st st' : merger (F := F)) :
  merge_anns ann_list id_map category_to_cat category st = Ok st' →
  numbered st →
  (∀ k v, id_map !! k = Some v → 1 ≤ v < next_image_id st) →
  numbered st' ∧ m_images st' = m_images st ∧
  ∃ news, m_anns st' = (m_anns st ++ news)%list ∧
    Forall2 (fun ann new_ann =>
               id_map !! ann_image_id ann = Some (ann_image_id new_ann) ∧
               category_to_cat !! category = Some (ann_category_id new_ann) ∧
               ann_bbox new_ann = ann_bbox ann ∧ ann_area new_ann = ann_area ann ∧
               ann_iscrowd new_ann = ann_iscrowd ann)
            ann_list news.
Proof.
  revert st. induction ann_list as [|ann ann_list IH]; intros st.
  - simpl. intros [= <-] Hnum Hmap. split_and!; [done..|].
    exists []. rewrite app_nil_r. split; [done|constructor].
  - cbn [merge_anns]. intros Hrun Hnum Hmap.
    destruct (id_map !! ann_image_id ann) as [new_image_id|] eqn:Himg; [|done].
    destruct (category_to_cat !! category) as [cat|] eqn:Hcat; [|done].
    destruct Hnum as (Hids & Hnext & Haids & Hanext & Hrefs).
    apply IH in Hrun as (Hnum' & Himgs & news & Hanns & Hnews).
    + cbn [m_images m_anns next_image_id next_ann_id] in *.
      split_and!; [done..|].
      eexists (_ :: news). rewrite Hanns, <- app_assoc. split; [done|].
      constructor; [|done]. by cbn.
    + unfold numbered. cbn [m_images m_anns next_image_id next_ann_id].
      rewrite map_app, length_app. cbn [map length ann_id].
      rewrite Nat.add_1_r, seqZ_snoc, Haids, Hanext.
      split_and!; [done|done|done|lia|].
      apply Forall_app. split; [done|]. constructor; [|constructor].
      cbn. by apply Hmap in Himg.
    + done.
Qed.

Lemma merge_zip_numbered (pairs : list (export * string))
    (category_to_cat : gmap string Z) (st st' : merger (F := F)) :
  merge_zip pairs category_to_cat st = Ok st' → numbered st → numbered st'.
Proof.
  revert st. induction pairs as [|[[[img_list ann_list] cats] category] pairs IH];
    intros st; cbn [merge_zip].
  - by intros [= <-].
  - destruct (merge_images img_list st ∅) as [st1 id_map] eqn:Himgs.
    intros Hrun Hnum.
    apply merge_images_spec in Himgs as (Hnum1 & _ & _ & _ & Hmap & _); [|done|done].
    destruct (merge_anns ann_list id_map category_to_cat category st1) as [st2|e] eqn:Hanns;
      [|done].
    apply merge_anns_spec in Hanns as (Hnum2 & _); [|done..].
    simpl in Hrun. by apply IH in Hrun.
Qed.

Lemma number_categories_ids idx names (m : gmap string Z) :
  map cat_id (fst (number_categories idx names m)) = seqZ idx (Z.of_nat (length names)) ∧
  map cat_name (fst (number_categories idx names m)) = map category_singular names.
Proof.
  revert idx m. induction names as [|name names IH]; intros idx m; [done|].
  cbn [number_categories].
  destruct (number_categories (idx + 1) names (<[name := idx]> m)) as [cats m'] eqn:Hrest.
  specialize (IH (idx + 1) (<[name := idx]> m)). rewrite Hrest in IH.
  destruct IH as [IH1 IH2]. cbn [fst map cat_id cat_name length] in *.
  rewrite IH1, IH2. split; [|done].
  rewrite (seqZ_cons idx) by lia. do 2 f_equal; lia.
Qed.

(** What holds of every merged export: the images and the annotations
    are numbered 1, 2, ... in the order of the lists, every annotation
    names an image of the merged list, and the categories are numbered
    1, 2, ... in the order of the names. *)
Lemma merge_numbering (per_category : list export) (category_names : list string)
    (imgs : list image) (annotations : list (annotation F)) (cats : list category) :
  _merge_coco_splits per_category category_names = Ok (imgs, annotations, cats) →
  map img_id imgs = seqZ 1 (Z.of_nat (length imgs)) ∧
  map ann_id annotations = seqZ 1 (Z.of_nat (length annotations)) ∧
  Forall (fun a => ann_image_id a ∈ map img_id imgs) annotations ∧
  map cat_id cats = seqZ 1 (Z.of_nat (length category_names)) ∧
  map cat_name cats = map category_singular category_names.
Proof.
  unfold _merge_coco_splits.
  pose proof (number_categories_ids 1 category_names ∅) as Hcats.
  destruct (number_categories 1 category_names ∅) as [categories category_to_cat].
  destruct (merge_zip _ _ _) as [st|e] eqn:Hrun; [|done].
  simpl. intros [= <- <- <-].
  apply merge_zip_numbered in Hrun as (Hids & Hnext & Haids & _ & Hrefs).
  - destruct Hcats as [Hc1 Hc2]. split_and!; [done|done| |done|done].
    eapply Forall_impl; [exact Hrefs|]. intros a Ha. simpl in Ha.
    rewrite Hids, elem_of_seqZ. lia.
  - unfold numbered. cbn. split_and!; first [done|constructor].
Qed.

End MergeFacts.

End MergeFacts.

(** ** Runs on concrete trees *)

Module Runs.

(** C1 fails on the code.  With an annotation file [a.json] that is no
    JSON, the run over the directory ends without an exception and prints
    one warning, the image and the annotation file are copied, the image
    [b.JPG] without annotation file gets its header-only CSV, but no CSV
    file is written for [a.JPG]. *)
Theorem malformed_json_leaves_no_csv {F : Type} `{PyNumber F}
    (json_load : string -> option (Reorganize.json_data F)) :
  json_load "{" = None →
  ∃ fs' : FS.t,
    Reorganize.process_directory json_load "raw" "out/images" "out/json" "out/csv" ".JPG"
      Fixture.raw_tree = Ok (fs', ["raw/a.json"]) ∧
    fs' !! "out/images/a.JPG" = Some (FS.File "640x480") ∧
    fs' !! "out/json/a.json" = Some (FS.File "{") ∧
    fs' !! "out/csv/a.csv" = None ∧
    fs' !! "out/csv/b.csv" = Some (FS.File Reorganize.header).
Proof.
  intros Hload. eexists. split.
  - vm_compute. rewrite Hload. vm_compute. reflexivity.
  - vm_compute. done.
Qed.

(** C8 fails on the code.  A data row with more fields than the header
    has names does not contribute a box and is not skipped either: the
    surplus fields sit under the key [None], which has no [lower], and the
    parse of the file ends with [AttributeError], whatever the fields
    hold. *)
Theorem long_row_aborts {F : Type} `{PyNumber F} :
  Csv.reader Fixture.long_row_csv = [["x"; "y"; "w"; "h"]; ["1"; "2"; "3"; "4"; "5"]] ∧
  Coco._parse_csv_boxes (F := F) Fixture.long_row_tree "oranges/csv/a.csv"
    = Raise AttributeError.
Proof. split; vm_compute; reflexivity. Qed.

(** C3 fails on the code.  With the categories [ghosts], [oranges],
    [backgrounds] and no directory for [ghosts], the exports of [oranges]
    and [backgrounds] are merged against the three names: the images and
    annotations are numbered 1, 2, ..., but the annotations of [oranges],
    second in the input order, carry the category id 1, the one of
    [ghost], and the annotation of [backgrounds] carries the id 2. *)
Theorem skipped_category_shifts_ids :
  ∃ (oranges backgrounds merged : Coco.export (F := Z)),
    Coco.convert_split Fixture.image_size Fixture.dataset "data"
      ["ghosts"; "oranges"; "backgrounds"] "train" true
    = Ok ([oranges; backgrounds], Some merged) ∧
    map Coco.cat_name (snd oranges) = ["orange"] ∧
    length (snd (fst oranges)) = 2%nat ∧
    map Coco.cat_name (snd backgrounds) = ["background"] ∧
    length (snd (fst backgrounds)) = 1%nat ∧
    map (fun c => (Coco.cat_id c, Coco.cat_name c)) (snd merged)
      = [(1, "ghost"); (2, "orange"); (3, "background")] ∧
    map Coco.img_id (fst (fst merged)) = [1; 2; 3] ∧
    map Coco.ann_id (snd (fst merged)) = [1; 2; 3] ∧
    map Coco.ann_image_id (snd (fst merged)) = [1; 1; 3] ∧
    map Coco.ann_category_id (snd (fst merged)) = [1; 1; 2].
Proof.
  eexists _, _, _. split; [vm_compute; reflexivity|]. vm_compute. done.
Qed.

(** C2, as stated, fails: an [annotations] list with one entry that has
    no [category_id] gives a CSV file with the header and no data row,
    from which the Converter reads no box.  The [KeyError] is the one that
    [process_image] catches and reports as a warning. *)
Lemma round_trip_needs_category_id :
  ∃ (fs' : FS.t) text,
    length (default [] (Reorganize.annotations Fixture3.no_category_id)) = 1%nat ∧
    Reorganize.json_to_csv Fixture3.no_category_id "out/csv/c.csv" ∅ = (fs', Some KeyError) ∧
    fs' !! "out/csv/c.csv" = Some (FS.File text) ∧
    Csv.reader text = [Reorganize.fieldnames] ∧
    length (tail (Csv.reader text))
      ≠ length (default [] (Reorganize.annotations Fixture3.no_category_id)) ∧
    Coco._parse_csv_boxes (F := Z) fs' "out/csv/c.csv" = Ok [].
Proof.
  eexists _, _. split; [reflexivity|]. split; [vm_compute; reflexivity|].
  split; [vm_compute; reflexivity|]. split; [vm_compute; reflexivity|].
  split; [vm_compute; discriminate|]. vm_compute. reflexivity.
Qed.

(** C7, as stated, fails: without a split file, images named [a.PNG],
    [b.Jpg] and [c.jpeg] under [images/] give the empty stem set, although
    their extensions are image extensions up to case. *)
Lemma fallback_is_case_sensitive :
  Coco.image_stems Fixture3.other_extensions "data/oranges" "train" = Ok ∅ ∧
  Fixture3.other_extensions !! ("data/oranges" // "images" // "a.PNG")
    = Some (FS.File "32x32") ∧
  Py.endswith ".png" (Py.lower "a.PNG") = true ∧
  Fixture3.other_extensions !! ("data/oranges" // "images" // "b.Jpg")
    = Some (FS.File "32x32") ∧
  Py.endswith ".jpg" (Py.lower "b.Jpg") = true ∧
  Fixture3.other_extensions !! ("data/oranges" // "images" // "c.jpeg")
    = Some (FS.File "32x32").
Proof. repeat split; vm_compute; reflexivity. Qed.

End Runs.

(** ** Dictionaries built from items *)

Module DictItems.

Section DictItems.
Context {V : Type}.
Implicit Types (d : Dict.t V) (k : string) (v : V).

Lemma set_fresh d k v : k ∉ map fst d → Dict.set d k v = (d ++ [(k, v)])%list.
Proof.
  induction d as [|[k0 v0] d IH]; [done|]. simpl. intros Hk.
  apply not_elem_of_cons in Hk as [Hne Hk].
  destruct (String.eqb_spec k0 k) as [->|_]; [done|]. by rewrite IH.
Qed.

Lemma of_items_snoc items k v :
  Dict.of_items (items ++ [(k, v)]) = Dict.set (Dict.of_items items) k v.
Proof. unfold Dict.of_items. by rewrite fold_left_app. Qed.

(** Items with pairwise distinct keys make the dictionary that lists
    them in their order. *)
Lemma of_items_NoDup (items : list (string * V)) :
  NoDup (map fst items) → Dict.of_items items = items.
Proof.
  induction items as [|[k v] items IH] using rev_ind; [done|].
  rewrite map_app. intros Hnd. apply NoDup_app in Hnd as (Hnd & Hk & _).
  rewrite of_items_snoc, IH by done. apply set_fresh.
  intros Hin. apply (Hk k Hin). simpl. left.
Qed.

Lemma get_None d k : k ∉ map fst d → Dict.get d k = None.
Proof.
  induction d as [|[k0 v0] d IH]; [done|]. simpl. intros Hk.
  apply not_elem_of_cons in Hk as [Hne Hk].
  destruct (String.eqb_spec k0 k) as [->|_]; [done|]. by apply IH.
Qed.

(** In a dictionary, the entry at a position is the one its key finds. *)
Lemma get_lookup d i k v :
  NoDup (map fst d) → d !! i = Some (k, v) → Dict.get d k = Some v.
Proof.
  revert i. induction d as [|[k0 v0] d IH]; intros i Hnd Hi; [done|].
  simpl in Hnd. apply NoDup_cons in Hnd as [Hk0 Hnd].
  destruct i as [|i]; simpl in *.
  - injection Hi as -> ->. by rewrite String.eqb_refl.
  - destruct (String.eqb_spec k0 k) as [->|_]; [|by eapply IH].
    exfalso. apply Hk0. apply list_elem_of_fmap. exists (k, v).
    split; [done|]. by eapply list_elem_of_lookup_2.
Qed.

(** The key of the last assignment wins. *)
Lemma get_of_items_last (items post : list (string * V)) k v :
  k ∉ map fst post → Dict.get (Dict.of_items (items ++ (k, v) :: post)) k = Some v.
Proof.
  induction post as [|[k1 v1] post IH] using rev_ind; intros Hk.
  - by rewrite of_items_snoc, DictFacts.get_set_eq.
  - rewrite map_app in Hk. apply not_elem_of_app in Hk as [Hk Hk1].
    simpl in Hk1. apply not_elem_of_cons in Hk1 as [Hne _].
    assert ((items ++ (k, v) :: post ++ [(k1, v1)])%list
            = ((items ++ (k, v) :: post) ++ [(k1, v1)])%list) as ->.
    { by rewrite <- (assoc_L (++)). }
    rewrite of_items_snoc, DictFacts.get_set_ne by done. by apply IH.
Qed.
End DictItems.

End DictItems.

(** ** The Converter: what a row holds *)

Module RowLookup.
Import Coco.

Lemma fold_set_fresh {V : Type} (d : Dict.t V) (keys : list string) (v : V) :
  NoDup (map fst d ++ keys) →
  fold_left (fun d key => Dict.set d key v) keys d
  = (d ++ map (fun key => (key, v)) keys)%list.
Proof.
  revert d. induction keys as [|key keys IH]; intros d Hnd; simpl.
  - by rewrite app_nil_r.
  - apply NoDup_app in Hnd as (Hd & Hdk & Hkeys).
    apply NoDup_cons in Hkeys as [Hkey Hkeys].
    rewrite DictItems.set_fresh.
    + rewrite IH.
      * by rewrite <- (assoc_L (++)).
      * rewrite map_app. simpl. rewrite <- (assoc_L (++)). simpl.
        apply NoDup_app. split_and!; [done| |by constructor].
        intros k Hk. by apply Hdk.
    + intros Hin. apply (Hdk key Hin). left.
Qed.

(** The dictionary of a row no longer than a header of distinct names:
    the names in their order, each with the field of its column, or with
    [None] when the row is too short to have one. *)
Lemma dict_row_lookup (fieldnames record : list string) :
  NoDup fieldnames → (length record ≤ length fieldnames)%nat →
  Csv.restkey (Csv.dict_row fieldnames record) = None ∧
  map fst (Csv.fields (Csv.dict_row fieldnames record)) = fieldnames ∧
  ∀ i h, fieldnames !! i = Some h →
         Csv.fields (Csv.dict_row fieldnames record) !! i = Some (h, record !! i).
Proof.
  intros Hnd Hlen. unfold Csv.dict_row.
  destruct (Nat.ltb_spec (length fieldnames) (length record)) as [?|_]; [lia|].
  cbn [Csv.restkey Csv.fields].
  set (lr := length record).
  assert (zip fieldnames (map Some record) = zip (take lr fieldnames) (map Some record)) as Hzip.
  { symmetry. apply zip_with_take_l'. rewrite length_map. unfold lr. lia. }
  assert (map fst (zip (take lr fieldnames) (map Some record)) = take lr fieldnames) as Hkeys.
  { apply fst_zip. rewrite length_take, length_map. unfold lr. lia. }
  assert (NoDup (take lr fieldnames ++ drop lr fieldnames)) as Hnd'.
  { by rewrite take_drop. }
  rewrite Hzip, DictItems.of_items_NoDup
    by (rewrite Hkeys; by apply NoDup_app in Hnd' as (? & _ & _)).
  rewrite fold_set_fresh by (by rewrite Hkeys).
  unfold Dict.t in *. split; [done|]. split.
  - by rewrite map_app, Hkeys, map_map, map_id, take_drop.
  - intros i h Hi. destruct (decide (i < lr)%nat) as [Hlt|Hge].
    + destruct (record !! i) as [r|] eqn:Hr;
        [|apply lookup_ge_None in Hr; unfold lr in Hlt; lia].
      rewrite lookup_app_l
        by (rewrite length_zip_with, length_take, length_map; unfold lr in *; lia).
      apply lookup_zip_with_Some. exists h, (Some r). split_and!; [done| |].
      * by rewrite lookup_take_lt.
      * by rewrite list_lookup_fmap, Hr.
    + rewrite lookup_app_r
        by (rewrite length_zip_with, length_take, length_map; unfold lr in *; lia).
      rewrite length_zip_with, length_take, length_map.
      replace (Nat.min (Nat.min lr (length fieldnames)) (length record)) with lr
        by (unfold lr; lia).
      rewrite list_lookup_fmap, lookup_drop.
      replace (lr + (i - lr))%nat with i by lia. rewrite Hi. simpl.
      rewrite (proj2 (lookup_ge_None record i)); [done|]. unfold lr in Hge. lia.
Qed.

(** X1. Under a header whose names are distinct even when lowered, a
    row that is no longer than the header is read without an exception,
    and the lowered name of every column finds the field of that column
    ([None] for a column the row is too short to fill). *)
Theorem row_field_lookup (fieldnames record : list string) (i : nat) (h : string) :
  NoDup (map Py.lower fieldnames) →
  (length record ≤ length fieldnames)%nat →
  fieldnames !! i = Some h →
  ∃ row, lower_row (Csv.dict_row fieldnames record) = Ok row ∧
         Dict.get row (Py.lower h) = Some (record !! i).
Proof.
  intros Hnd Hlen Hi.
  destruct (dict_row_lookup fieldnames record) as (Hrest & Hkeys & Hfields);
    [by eapply NoDup_fmap_1|done|].
  unfold lower_row. rewrite Hrest. eexists. split; [done|].
  set (items := map (fun '(k, v) => (Py.lower k, v)) (Csv.fields (Csv.dict_row fieldnames record))).
  assert (map fst items = map Py.lower fieldnames) as Hitems.
  { transitivity (map Py.lower (map fst (Csv.fields (Csv.dict_row fieldnames record))));
      [|by rewrite Hkeys].
    unfold items. rewrite !map_map. apply map_ext. by intros []. }
  rewrite DictItems.of_items_NoDup by (by rewrite Hitems).
  apply (DictItems.get_lookup _ i); [by rewrite Hitems|].
  unfold items, Dict.t in *. rewrite list_lookup_fmap, (Hfields i h Hi). done.
Qed.

End RowLookup.

(** ** The Converter: when the parse of a file raises *)

Module ParseFacts.
Import Coco.

Section ParseFacts.
Context {F : Type} `{PyNumber F}.

Lemma row_box_surplus (raw_row : Csv.row) :
  Csv.restkey raw_row ≠ None → row_box (F := F) raw_row = Raise AttributeError.
Proof.
  intros Hrest. unfold row_box, lower_row.
  by destruct (Csv.restkey raw_row).
Qed.

Lemma row_box_cases (raw_row : Csv.row) :
  (Csv.restkey raw_row = None ∧ ∃ b, row_box (F := F) raw_row = Ok b) ∨
  (Csv.restkey raw_row ≠ None ∧ row_box (F := F) raw_row = Raise AttributeError).
Proof.
  destruct (Csv.restkey raw_row) as [rest|] eqn:Hrest.
  - right. split; [done|]. apply row_box_surplus. by rewrite Hrest.
  - left. split; [done|]. unfold row_box, lower_row. rewrite Hrest.
    cbn [mbind result_bind bind].
    repeat case_match; eauto.
Qed.

Lemma rows_boxes_spec (rows : list Csv.row) :
  (Forall (fun raw_row => Csv.restkey raw_row = None) rows →
   ∃ boxes, rows_boxes (F := F) rows = Ok boxes ∧ (length boxes ≤ length rows)%nat) ∧
  (Exists (fun raw_row => Csv.restkey raw_row ≠ None) rows →
   rows_boxes (F := F) rows = Raise AttributeError).
Proof.
  induction rows as [|raw_row rows [IHok IHraise]].
  - split; [by exists []|]. by intros ?%Exists_nil.
  - cbn [rows_boxes]. split.
    + intros [Hrow Hrows]%Forall_cons.
      destruct (row_box_cases raw_row) as [(_ & b & ->)|(? & _)]; [|done].
      destruct (IHok Hrows) as (boxes & -> & Hlen). cbn.
      destruct b; eexists; (split; [done|]); simpl; lia.
    + intros Hex. destruct (row_box_cases raw_row) as [(Hrow & b & ->)|(_ & ->)]; [|done].
      apply Exists_cons in Hex as [?|Hex]; [done|].
      by rewrite (IHraise Hex).
Qed.

(** X2. The parse of the records of a CSV file raises exactly when a
    record after the header has more fields than the header: then it ends
    with [AttributeError]; otherwise it returns at most one box per
    record. *)
Theorem parse_records_raises (fieldnames : list string) (records : list (list string)) :
  (Forall (fun record => (length record ≤ length fieldnames)%nat) records →
   ∃ boxes, parse_records (F := F) (fieldnames :: records) = Ok boxes ∧
            (length boxes ≤ length records)%nat) ∧
  (Exists (fun record => (length fieldnames < length record)%nat) records →
   parse_records (F := F) (fieldnames :: records) = Raise AttributeError).
Proof.
  unfold parse_records, Csv.dict_reader.
  destruct (rows_boxes_spec
              (map (Csv.dict_row fieldnames) (filter (fun r => r ≠ []) records)))
    as [Hok Hraise].
  split.
  - intros Hall. destruct Hok as (boxes & Hboxes & Hlen).
    + apply Forall_fmap, Forall_forall. intros record [_ Hin]%list_elem_of_filter.
      rewrite Forall_forall in Hall. cbn. apply RowFacts.dict_row_restkey. auto.
    + exists boxes. split; [done|].
      rewrite length_map in Hlen. pose proof (length_filter (fun r => r ≠ []) records). lia.
  - intros Hex. apply Hraise, Exists_fmap, Exists_exists.
    apply Exists_exists in Hex as (record & Hin & Hlong).
    exists record. split.
    + apply list_elem_of_filter. split; [|done]. intros ->. simpl in Hlong. lia.
    + cbn. rewrite RowFacts.dict_row_restkey. lia.
Qed.

(** X3. What a group of synonyms resolves to: the number of the first
    name of the group, in the order of the group, whose field is there,
    is not empty and is read by [float].  A name whose field is missing,
    empty or no number is passed over. *)
Theorem synonym_resolution (row : Dict.t (option string)) (keys : list string) (f : F) :
  get row keys = Some f ↔
  ∃ pre key post v,
    keys = (pre ++ key :: post)%list ∧
    Dict.get row key = Some (Some v) ∧ v ≠ "" ∧ float_of_str v = Some f ∧
    (∀ k, k ∈ pre →
          Dict.get row k = None ∨ Dict.get row k = Some None ∨
          Dict.get row k = Some (Some "") ∨
          ∃ v', Dict.get row k = Some (Some v') ∧ float_of_str v' = None).
Proof.
  rewrite RowFacts.get_Some. split.
  - intros (pre & key & post & v & Hk & Hget & Hv & Hf & Hpre).
    exists pre, key, post, v. split_and!; [done..|].
    intros k Hk'. specialize (Hpre k Hk'). simpl in Hpre.
    destruct (Dict.get row k) as [[v'|]|]; [|auto..].
    destruct v' as [|c v']; [auto|]. simpl in Hpre.
    destruct (float_of_str (String c v')) eqn:Hfloat; [done|]. eauto 10.
  - intros (pre & key & post & v & Hk & Hget & Hv & Hf & Hpre).
    exists pre, key, post, v. split_and!; [done..|].
    intros k Hk'. simpl.
    destruct (Hpre k Hk') as [->|[->|[->|(v' & -> & Hfloat)]]]; [done..|].
    rewrite Hfloat. by destruct (Py.nonempty v').
Qed.

(** X4. A CSV file that is missing, empty, or has nothing but empty
    lines after its header gives no box and no exception. *)
Theorem parse_csv_no_data (fs : FS.t) (csv_path : string) :
  (fs !! csv_path = None ∨
   ∃ text, fs !! csv_path = Some (FS.File text) ∧
           Forall (fun record => record = []) (tail (Csv.reader text))) →
  _parse_csv_boxes (F := F) fs csv_path = Ok [].
Proof.
  unfold _parse_csv_boxes, FS.exists_, FS.read.
  intros [->|(text & -> & Hempty)]; [done|]. simpl.
  unfold parse_records, Csv.dict_reader.
  destruct (Csv.reader text) as [|fieldnames records]; [done|].
  simpl in Hempty.
  assert (filter (fun r => r ≠ []) records = []) as ->; [|done].
  induction Hempty as [|record records -> _ IH]; [done|].
  by rewrite filter_cons, decide_False by (by intros ?).
Qed.

End ParseFacts.

End ParseFacts.

(** ** The Converter: what a merge keeps, and when it raises *)

Module MergeKeys.
Import Coco.

Section MergeKeys.
Context {F : Type} `{PyNumber F}.

Lemma merge_images_fields img_list (st st' : merger (F := F)) (id_map id_map' : gmap Z Z) :
  merge_images img_list st id_map = (st', id_map') →
  map Merged.image_fields (m_images st')
    = (map Merged.image_fields (m_images st) ++ map Merged.image_fields img_list)%list ∧
  m_anns st' = m_anns st ∧
  (∀ k, is_Some (id_map' !! k) ↔ is_Some (id_map !! k) ∨ k ∈ map img_id img_list).
Proof.
  revert st id_map. induction img_list as [|img img_list IH]; intros st id_map.
  - simpl. intros [= <- <-]. rewrite app_nil_r. split_and!; [done..|].
    intros k. split; [auto|]. intros [?|Hk]; [done|]. by apply elem_of_nil in Hk.
  - cbn [merge_images]. intros Hrun.
    apply IH in Hrun as (Himgs & Hanns & Hdom).
    cbn [m_images m_anns] in *. rewrite map_app in Himgs.
    cbn [map] in *. rewrite <- (assoc_L (++)) in Himgs.
    split_and!; [done..|].
    intros k. rewrite Hdom, elem_of_cons. rewrite lookup_insert.
    case_decide as Hk; [subst k|]; split; intros; eauto.
    + naive_solver.
    + naive_solver.
Qed.

Lemma merge_anns_fields ann_list (id_map : gmap Z Z) (category_to_cat : gmap string Z)
    category (st st' : merger (F := F)) :
  merge_anns ann_list id_map category_to_cat category st = Ok st' →
  m_images st' = m_images st ∧
  map Merged.annotation_fields (m_anns st')
    = (map Merged.annotation_fields (m_anns st) ++ map Merged.annotation_fields ann_list)%list ∧
  ∃ cat, (ann_list = [] ∨ category_to_cat !! category = Some cat) ∧
    map ann_category_id (m_anns st')
      = (map ann_category_id (m_anns st) ++ replicate (length ann_list) cat)%list.
Proof.
  revert st. induction ann_list as [|ann ann_list IH]; intros st.
  - simpl. intros [= <-]. rewrite !app_nil_r. split_and!; [done..|].
    exists 0. rewrite ?app_nil_r. auto.
  - cbn [merge_anns]. intros Hrun.
    destruct (id_map !! ann_image_id ann) as [new_image_id|]; [|done].
    destruct (category_to_cat !! category) as [cat|] eqn:Hcat; [|done].
    apply IH in Hrun as (Himgs & Hanns & cat' & Hcat' & Hids).
    cbn [m_images m_anns] in *. rewrite map_app in Hanns, Hids.
    cbn [map] in *. rewrite <- (assoc_L (++)) in Hanns. rewrite <- (assoc_L (++)) in Hids.
    split_and!; [done..|]. exists cat. split; [auto|].
    rewrite Hids. cbn [ann_category_id length replicate app]. do 2 f_equal.
    destruct Hcat' as [->|Hcat']; [done|]. congruence.
Qed.

(** [merge_anns] goes through exactly when [id_map] holds the image of
    every annotation. *)
Lemma merge_anns_cases ann_list (id_map : gmap Z Z) (category_to_cat : gmap string Z)
    category (st : merger (F := F)) :
  is_Some (category_to_cat !! category) →
  (Forall (fun a => is_Some (id_map !! ann_image_id a)) ann_list ∧
   ∃ st', merge_anns ann_list id_map category_to_cat category st = Ok st') ∨
  (¬ Forall (fun a => is_Some (id_map !! ann_image_id a)) ann_list ∧
   merge_anns ann_list id_map category_to_cat category st = Raise KeyError).
Proof.
  intros [cat Hcat]. revert st. induction ann_list as [|ann ann_list IH]; intros st.
  - left. split; [constructor|]. by exists st.
  - cbn [merge_anns]. rewrite Hcat.
    destruct (id_map !! ann_image_id ann) as [new_image_id|] eqn:Himg.
    + match goal with |- context [merge_anns ann_list _ _ _ ?s] =>
        destruct (IH s) as [[Hall Hok]|[Hall Hraise]] end.
      * left. split; [|done]. constructor; [by rewrite Himg|done].
      * right. split; [|done]. by intros [_ ?]%Forall_cons.
    + right. split; [|done]. intros [[? ?] _]%Forall_cons. congruence.
Qed.

Lemma number_categories_lookup idx names (m : gmap string Z) i name :
  names !! i = Some name → name ∉ drop (S i) names →
  snd (number_categories idx names m) !! name = Some (idx + Z.of_nat i).
Proof.
  assert (∀ names idx (m : gmap string Z) name v,
            name ∉ names → m !! name = Some v →
            snd (number_categories idx names m) !! name = Some v) as Hkeep.
  { clear. induction names as [|n names IH]; intros idx m name v Hnot Hm; [done|].
    cbn [number_categories].
    destruct (number_categories (idx + 1) names (<[n := idx]> m)) as [cats m'] eqn:Hrest.
    cbn [snd]. apply not_elem_of_cons in Hnot as [Hne Hnot].
    specialize (IH (idx + 1) (<[n := idx]> m) name v Hnot).
    rewrite Hrest in IH. apply IH. by rewrite lookup_insert_ne. }
  revert idx m i. induction names as [|n names IH]; intros idx m i Hi Hlast; [done|].
  cbn [number_categories].
  destruct (number_categories (idx + 1) names (<[n := idx]> m)) as [cats m'] eqn:Hrest.
  cbn [snd]. destruct i as [|i]; simpl in Hi, Hlast.
  - injection Hi as ->. rewrite Z.add_0_r.
    specialize (Hkeep names (idx + 1) (<[name := idx]> m) name idx Hlast).
    rewrite Hrest in Hkeep. apply Hkeep. by rewrite lookup_insert_eq.
  - specialize (IH (idx + 1) (<[n := idx]> m) i Hi Hlast).
    rewrite Hrest in IH. cbn [snd] in IH. rewrite IH. f_equal. lia.
Qed.

Lemma number_categories_dom idx names (m : gmap string Z) name :
  name ∈ names → is_Some (snd (number_categories idx names m) !! name).
Proof.
  intros Hin. apply list_elem_of_lookup in Hin as [i Hi].
  revert i Hi. induction names as [|n names IH] using rev_ind; intros i Hi; [done|].
  destruct (decide (name = n)) as [->|Hne].
  - exists (idx + Z.of_nat (length names)).
    apply number_categories_lookup.
    + by rewrite lookup_app_r, Nat.sub_diag by done.
    + rewrite drop_ge; [apply not_elem_of_nil|]. rewrite length_app. simpl. lia.
  - assert (names !! i = Some name) as Hi'.
    { apply lookup_app_Some in Hi as [?|[_ Hi]]; [done|].
      destruct (i - length names)%nat; simpl in Hi; [congruence|done]. }
    clear Hi. specialize (IH i Hi').
    (* the last occurrence of [name] is in [names] *)
    assert (∃ j, names !! j = Some name ∧ name ∉ drop (S j) names) as (j & Hj & Hlast).
    { clear -Hi'. revert i Hi'. induction names as [|n' names IH]; intros i Hi; [done|].
      destruct (decide (name ∈ names)) as [Hin|Hnot].
      - apply list_elem_of_lookup in Hin as [i' Hi'].
        destruct (IH i' Hi') as (j & Hj & Hlast). by exists (S j).
      - destruct i as [|i]; simpl in Hi.
        + injection Hi as ->. exists 0%nat. split; [done|]. simpl. by rewrite drop_0.
        + exfalso. apply Hnot. by eapply list_elem_of_lookup_2. }
    exists (idx + Z.of_nat j). apply number_categories_lookup.
    + by apply lookup_app_l_Some.
    + rewrite drop_app_le by (apply lookup_lt_Some in Hj; lia).
      intros [?|Hin]%elem_of_app; [done|].
      apply list_elem_of_singleton in Hin. done.
Qed.

Lemma merge_zip_fields (pairs : list (export * string)) (category_to_cat : gmap string Z)
    (st st' : merger (F := F)) :
  merge_zip pairs category_to_cat st = Ok st' →
  map Merged.image_fields (m_images st')
    = (map Merged.image_fields (m_images st)
       ++ concat (map (fun '(e, _) => map Merged.image_fields (fst (fst e))) pairs))%list ∧
  map Merged.annotation_fields (m_anns st')
    = (map Merged.annotation_fields (m_anns st)
       ++ concat (map (fun '(e, _) => map Merged.annotation_fields (snd (fst e))) pairs))%list ∧
  map ann_category_id (m_anns st')
    = (map ann_category_id (m_anns st)
       ++ concat (map (fun '(e, category) =>
                         replicate (length (snd (fst e)))
                                   (default 0 (category_to_cat !! category))) pairs))%list.
Proof.
  revert st. induction pairs as [|[[[img_list ann_list] cats] category] pairs IH];
    intros st; cbn [merge_zip].
  - intros [= <-]. simpl. by rewrite !app_nil_r.
  - destruct (merge_images img_list st ∅) as [st1 id_map] eqn:Himgs.
    apply merge_images_fields in Himgs as (Hi1 & Ha1 & _).
    destruct (merge_anns ann_list id_map category_to_cat category st1) as [st2|e] eqn:Hanns;
      [|done].
    apply merge_anns_fields in Hanns as (Hi2 & Ha2 & cat & Hcat & Hc2).
    simpl. intros Hrun. apply IH in Hrun as (Hi3 & Ha3 & Hc3).
    rewrite Hi3, Ha3, Hc3, Hi2, Ha2, Hc2, Hi1, Ha1.
    rewrite <- !(assoc_L (++)). split_and!; [done..|].
    destruct Hcat as [-> | Hcat]; [done|]. by rewrite Hcat.
Qed.

Lemma merge_zip_cases (pairs : list (export (F := F) * string)) (category_to_cat : gmap string Z)
    (st : merger (F := F)) :
  Forall (fun pair => is_Some (category_to_cat !! snd pair)) pairs →
  (Forall (fun pair => Merged.closed (fst pair)) pairs ∧
   ∃ st', merge_zip pairs category_to_cat st = Ok st') ∨
  (¬ Forall (fun pair => Merged.closed (fst pair)) pairs ∧
   merge_zip pairs category_to_cat st = Raise KeyError).
Proof.
  intros Hcats. revert st.
  induction Hcats as [|[[[img_list ann_list] cats] category] pairs Hcat _ IH]; intros st.
  - left. split; [constructor|]. by exists st.
  - cbn [merge_zip]. simpl in Hcat.
    destruct (merge_images img_list st ∅) as [st1 id_map] eqn:Himgs.
    apply merge_images_fields in Himgs as (_ & _ & Hdom).
    assert (Merged.closed (img_list, ann_list, cats)
            ↔ Forall (fun a => is_Some (id_map !! ann_image_id a)) ann_list) as Hclosed.
    { unfold Merged.closed. simpl. apply Forall_proper; [|done].
      intros a. rewrite Hdom, lookup_empty. split; [auto|].
      intros [[? ?]|?]; done. }
    destruct (merge_anns_cases ann_list id_map category_to_cat category st1 Hcat)
      as [[Hall [st2 ->]]|[Hall ->]].
    + simpl. destruct (IH st2) as [[Hrest Hok]|[Hrest Hraise]].
      * left. split; [|done]. constructor; [by apply Hclosed|done].
      * right. split; [|done]. by intros [_ ?]%Forall_cons.
    + right. split; [|done]. intros [? _]%Forall_cons. apply Hall. by apply Hclosed.
Qed.

Lemma zip_snd_elem_of {A B : Type} (l : list A) (k : list B) (pair : A * B) :
  pair ∈ zip l k → snd pair ∈ k.
Proof.
  intros [i Hi]%list_elem_of_lookup.
  apply lookup_zip_with_Some in Hi as (a & b & -> & _ & Hb).
  by eapply list_elem_of_lookup_2.
Qed.

(** X5. A merge goes through exactly when, in every export that has a
    name to go with, each annotation names an image of the same export;
    otherwise it ends with [KeyError]. *)
Theorem merge_key_error (per_category : list (export (F := F)))
    (category_names : list string) :
  (Forall (fun pair => Merged.closed (fst pair)) (zip per_category category_names) →
   ∃ e, _merge_coco_splits per_category category_names = Ok e) ∧
  (¬ Forall (fun pair => Merged.closed (fst pair)) (zip per_category category_names) →
   _merge_coco_splits per_category category_names = Raise KeyError).
Proof.
  unfold _merge_coco_splits.
  pose proof (fun name => number_categories_dom 1 category_names ∅ name) as Hdom.
  destruct (number_categories 1 category_names ∅) as [categories category_to_cat].
  simpl in Hdom.
  match goal with |- context [merge_zip ?p ?c ?s] =>
    destruct (merge_zip_cases p c s) as [[Hall [st' Hok]]|[Hall Hraise]] end.
  - apply Forall_forall. intros pair Hin. apply Hdom. by eapply zip_snd_elem_of.
  - rewrite Hok. simpl. split; [eauto|done].
  - rewrite Hraise. simpl. split; [done|eauto].
Qed.

(** X6. A merge keeps, in the order of the exports and within each in
    the order of its lists, the file name, width and height of every
    image and the bbox, area and iscrowd of every annotation.  Exports
    beyond the number of category names are left out. *)
Theorem merge_keeps_fields (per_category : list export) (category_names : list string)
    (imgs : list image) (annotations : list (annotation F)) (cats : list category) :
  _merge_coco_splits per_category category_names = Ok (imgs, annotations, cats) →
  map Merged.image_fields imgs
    = concat (map (fun '(e, _) => map Merged.image_fields (fst (fst e)))
                  (zip per_category category_names)) ∧
  map Merged.annotation_fields annotations
    = concat (map (fun '(e, _) => map Merged.annotation_fields (snd (fst e)))
                  (zip per_category category_names)).
Proof.
  unfold _merge_coco_splits.
  destruct (number_categories 1 category_names ∅) as [categories category_to_cat].
  destruct (merge_zip _ _ _) as [st|e] eqn:Hrun; [|done].
  simpl. intros [= <- <- <-].
  by apply merge_zip_fields in Hrun as (-> & -> & _).
Qed.

(** X7. When the category names are pairwise distinct, the annotations
    of the [i]-th export (counting from 0) all carry the category id
    [i + 1] in the merged list. *)
Theorem merge_category_ids (per_category : list export) (category_names : list string)
    (imgs : list image) (annotations : list (annotation F)) (cats : list category) :
  NoDup category_names →
  _merge_coco_splits per_category category_names = Ok (imgs, annotations, cats) →
  map ann_category_id annotations
    = concat (imap (fun i '(e, _) => replicate (length (snd (fst e))) (1 + Z.of_nat i))
                   (zip per_category category_names)).
Proof.
  intros Hnd. unfold _merge_coco_splits.
  pose proof (fun i name => number_categories_lookup 1 category_names ∅ i name) as Hlookup.
  destruct (number_categories 1 category_names ∅) as [categories category_to_cat].
  simpl in Hlookup.
  destruct (merge_zip _ _ _) as [st|e] eqn:Hrun; [|done].
  simpl. intros [= <- <- <-].
  apply merge_zip_fields in Hrun as (_ & _ & ->). simpl. f_equal.
  rewrite <- (imap_const (fun '(e, category) =>
    replicate (length (snd (fst e))) (default 0 (category_to_cat !! category)))).
  apply imap_ext. intros i [e category] Hi.
  apply lookup_zip_with_Some in Hi as (e' & c' & Heq & _ & Hname).
  injection Heq as -> ->. simpl.
  rewrite (Hlookup i c' Hname); [done|].
  intros Hin. apply list_elem_of_lookup in Hin as [j Hj]. rewrite lookup_drop in Hj.
  pose proof (NoDup_lookup _ _ _ _ Hnd Hname Hj). lia.
Qed.

End MergeKeys.

End MergeKeys.

(** ** The theorems at concrete inputs *)

Module Witness.

(** [csv_round_trip] on an annotation file with two boxes, written to a
    fresh path. *)
Lemma csv_round_trip_witness :
  ∃ (fs' : FS.t) text rows,
    Reorganize.json_to_csv Fixture.two_boxes "out/csv/c.csv" ∅ = (fs', None) ∧
    fs' !! "out/csv/c.csv" = Some (FS.File text) ∧
    Csv.reader text = Reorganize.fieldnames :: rows ∧
    length rows = 2%nat ∧
    length [{| Coco.x := 10; Coco.y := 20; Coco.width := 30; Coco.height := 40 |};
            {| Coco.x := 5; Coco.y := 6; Coco.width := 7; Coco.height := 8 |}] = 2%nat ∧
    Coco._parse_csv_boxes fs' "out/csv/c.csv"
    = Ok [{| Coco.x := 10; Coco.y := 20; Coco.width := 30; Coco.height := 40 |};
          {| Coco.x := 5; Coco.y := 6; Coco.width := 7; Coco.height := 8 |}].
Proof.
  apply (ReorganizeFacts.csv_round_trip Fixture.two_boxes
           [{| Reorganize.bbox := Some [10; 20; 30; 40]; Reorganize.category_id := Some 1 |};
            {| Reorganize.bbox := Some [5; 6; 7; 8; 9]; Reorganize.category_id := Some 0 |}]).
  - reflexivity.
  - constructor; [|constructor; [|constructor]].
    + exists [], 1. vm_compute. repeat split.
    + exists [9], 0. vm_compute. repeat split.
  - vm_compute. discriminate.
Defined.

(** [single_category_ids] and [single_category] on the export of a
    category whose split file names three stems, one of them without
    image. *)
Lemma single_category_ids_witness :
  map Coco.img_id (fst (fst Fixture.oranges_train)) = [1; 2] ∧
  map Coco.img_file_name (fst (fst Fixture.oranges_train))
    = ["oranges/images/a.jpg"; "oranges/images/b.JPG"] ∧
  map Coco.ann_id (snd (fst Fixture.oranges_train)) = [1; 2] ∧
  map Coco.ann_image_id (snd (fst Fixture.oranges_train)) = [1; 1].
Proof.
  destruct (CocoFacts.single_category_ids Fixture.image_size Fixture.dataset_with_split
              "data/oranges" "train" "oranges"
              (fst (fst Fixture.oranges_train)) (snd (fst Fixture.oranges_train))
              (snd Fixture.oranges_train))
    as (stems & boxes & Hstems & _ & _ & _ & _ & Hboxes & Hids & Hnames & Haids & Himgids & _).
  - vm_compute. reflexivity.
  - vm_compute in Hstems. injection Hstems as <-.
    rewrite Hids, Hnames, Haids, Himgids.
    split; [vm_compute; reflexivity|]. split; [vm_compute; reflexivity|].
    split; [vm_compute; reflexivity|].
    apply Forall2_cons_inv_l in Hboxes as (bs1 & boxes1 & Hbs1 & Hboxes & ->).
    apply Forall2_cons_inv_l in Hboxes as (bs2 & boxes2 & Hbs2 & Hboxes & ->).
    apply Forall2_nil_inv_l in Hboxes as ->.
    vm_compute in Hbs1. injection Hbs1 as <-.
    vm_compute in Hbs2. injection Hbs2 as <-.
    vm_compute. reflexivity.
Defined.

Lemma single_category_witness :
  snd Fixture.oranges_train
  = [{| Coco.cat_id := 1; Coco.cat_name := Coco.category_singular "oranges";
        Coco.cat_supercategory := "plant" |}] ∧
  (∀ p, "oranges" = p +:+ "s" → Coco.category_singular "oranges" = p) ∧
  ((¬ ∃ p, "oranges" = p +:+ "s") → Coco.category_singular "oranges" = "oranges") ∧
  Coco.category_singular "backgrounds" = "background" ∧
  Coco.category_singular "oranges" = "orange".
Proof.
  apply (CocoFacts.single_category Fixture.image_size Fixture.dataset_with_split
           "data/oranges" "train" "oranges"
           (fst (fst Fixture.oranges_train)) (snd (fst Fixture.oranges_train))).
  vm_compute. reflexivity.
Defined.

(** [image_stems_fallback] on a category without split files. *)
Lemma image_stems_fallback_witness :
  ∃ stems : gset string,
    Coco.image_stems Fixture.dataset "data/oranges" "train" = Ok stems ∧
    ∀ stem, stem ∈ stems ↔
            ∃ n, Coco.image_entry Fixture.dataset ("data/oranges" // "images") n ∧
                 stem = Path.stem ("data/oranges" // "images" // n).
Proof.
  apply (CocoFacts.image_stems_fallback Fixture.dataset "data/oranges" "train").
  left. vm_compute. reflexivity.
Defined.

(** [fix_splits_output] on two split files in the original naming, over
    a stale [sets/train.txt]: the text of the two files written, and the
    stems that the Converter reads from the first one. *)
Lemma fix_splits_output_witness :
  ∃ fs' : FS.t,
    FixSplits.fix_splits Fixture.mapping "oranges" "all" Fixture.all_tree = Ok fs' ∧
    fs' !! "oranges/sets/train.txt"
      = Some (FS.File ("0001" +:+ Py.nl +:+ "0002" +:+ Py.nl)) ∧
    fs' !! "oranges/sets/val.txt" = Some (FS.File ("0003" +:+ Py.nl)) ∧
    fs' !! "oranges/sets/test.txt" = None ∧
    Coco._read_split_list fs' "oranges/sets/train.txt" = Ok ["0001"; "0002"].
Proof.
  destruct (FixSplitsFacts.fix_splits_output Fixture.mapping "oranges" "all" Fixture.all_tree)
    as (fs' & Hrun & Hall).
  - intros sf Hsf. unfold FixSplits.split_files in Hsf.
    apply elem_of_cons in Hsf as [->|Hsf]; [right; eexists; vm_compute; reflexivity|].
    apply elem_of_cons in Hsf as [->|Hsf]; [right; eexists; vm_compute; reflexivity|].
    apply elem_of_cons in Hsf as [->|Hsf]; [left; vm_compute; reflexivity|].
    by apply elem_of_nil in Hsf.
  - intros x. vm_compute. discriminate.
  - intros sf Hsf. unfold FixSplits.split_files in Hsf.
    apply elem_of_cons in Hsf as [->|Hsf]; [vm_compute; discriminate|].
    apply elem_of_cons in Hsf as [->|Hsf]; [vm_compute; discriminate|].
    apply elem_of_cons in Hsf as [->|Hsf]; [vm_compute; discriminate|].
    by apply elem_of_nil in Hsf.
  - exists fs'. split; [exact Hrun|].
    edestruct (Hall "train.txt") as (out & Hfile & _ & Hback & Hout & _);
      [repeat constructor|vm_compute; reflexivity|].
    edestruct (Hall "val.txt") as (out' & Hfile' & _ & _ & Hout' & _);
      [repeat constructor|vm_compute; reflexivity|].
    assert (out = ["0001"; "0002"]) as -> by (rewrite Hout; vm_compute; reflexivity).
    assert (out' = ["0003"]) as -> by (rewrite Hout'; vm_compute; reflexivity).
    split; [exact Hfile|]. split; [exact Hfile'|]. split.
    + vm_compute in Hrun. injection Hrun as <-. vm_compute. reflexivity.
    + unfold Coco._read_split_list, FS.exists_, FS.read.
      change ("oranges" // "sets" // "train.txt") with "oranges/sets/train.txt" in Hfile.
      rewrite Hfile.
      change (Ok (Py.stripped_splitlines (Py.write_lines ["0001"; "0002"]))
              = Ok ["0001"; "0002"]).
      rewrite Hback; [reflexivity|].
      repeat constructor; vm_compute; congruence.
Defined.

(** [malformed_json_leaves_no_csv] with a loader that finds no JSON. *)
Lemma malformed_json_witness :
  ∃ fs' : FS.t,
    Reorganize.process_directory Fixture.no_json "raw" "out/images" "out/json" "out/csv" ".JPG"
      Fixture.raw_tree = Ok (fs', ["raw/a.json"]) ∧
    fs' !! "out/images/a.JPG" = Some (FS.File "640x480") ∧
    fs' !! "out/json/a.json" = Some (FS.File "{") ∧
    fs' !! "out/csv/a.csv" = None ∧
    fs' !! "out/csv/b.csv" = Some (FS.File Reorganize.header).
Proof. apply (Runs.malformed_json_leaves_no_csv Fixture.no_json). reflexivity. Defined.

(** [reorganize_splits_files] on a [train.txt] with lines of both
    categories and a [val.txt] with healthy leaves only: the four files,
    of which the stale [sets/val.txt] of [oranges] is left as it was. *)
Lemma reorganize_splits_files_witness :
  ∃ fs' : FS.t,
    ReorganizeSplits.reorganize_splits "raw/all"
      [("oranges", "data/oranges"); ("backgrounds", "data/backgrounds")] Fixture3.splits_tree
    = Ok fs' ∧
    fs' !! "data/oranges/sets/train.txt"
      = Some (FS.File ("CREC_HLB_0001" +:+ Py.nl +:+ "image (3)" +:+ Py.nl)) ∧
    fs' !! "data/backgrounds/sets/train.txt" = Some (FS.File ("leaf_17" +:+ Py.nl)) ∧
    fs' !! "data/oranges/sets/val.txt" = Some (FS.File ("stale" +:+ Py.nl)) ∧
    fs' !! "data/backgrounds/sets/val.txt" = Some (FS.File ("leaf_20" +:+ Py.nl)) ∧
    fs' !! "data/oranges/sets/test.txt" = None ∧
    fs' !! "data/backgrounds/sets/test.txt" = None.
Proof.
  destruct (ReorganizeSplitsRun.reorganize_splits_files "raw/all" "data/oranges"
              "data/backgrounds" Fixture3.splits_tree)
    as (_ & fs' & Hrun & Hall).
  - discriminate.
  - intros sf Hsf. unfold SplitRound.split_files in Hsf.
    apply elem_of_cons in Hsf as [->|Hsf]; [right; eexists; vm_compute; reflexivity|].
    apply elem_of_cons in Hsf as [->|Hsf]; [right; eexists; vm_compute; reflexivity|].
    apply elem_of_cons in Hsf as [->|Hsf]; [left; vm_compute; reflexivity|].
    by apply elem_of_nil in Hsf.
  - intros x. vm_compute. discriminate.
  - intros x. vm_compute. discriminate.
  - intros sf Hsf. unfold SplitRound.split_files in Hsf.
    apply elem_of_cons in Hsf as [->|Hsf]; [split; vm_compute; discriminate|].
    apply elem_of_cons in Hsf as [->|Hsf]; [split; vm_compute; discriminate|].
    apply elem_of_cons in Hsf as [->|Hsf]; [split; vm_compute; discriminate|].
    by apply elem_of_nil in Hsf.
  - exists fs'. split; [exact Hrun|].
    destruct (Hall "train.txt") as [_ Htrain]; [repeat constructor|].
    destruct (Htrain ("CREC_HLB_0001.JPG" +:+ Py.nl +:+ "leaf_17.JPG" +:+ Py.nl
                      +:+ "image (3).JPG" +:+ Py.nl)) as [Ho1 Hb1];
      [vm_compute; reflexivity|].
    destruct (Hall "val.txt") as [_ Hval]; [repeat constructor|].
    destruct (Hval ("leaf_20.JPG" +:+ Py.nl)) as [Ho2 Hb2]; [vm_compute; reflexivity|].
    destruct (Hall "test.txt") as [Htest _]; [repeat constructor|].
    destruct Htest as [Ho3 Hb3]; [vm_compute; reflexivity|].
    split; [etrans; [exact Ho1|]; vm_compute; reflexivity|].
    split; [etrans; [exact Hb1|]; vm_compute; reflexivity|].
    split; [etrans; [exact Ho2|]; vm_compute; reflexivity|].
    split; [etrans; [exact Hb2|]; vm_compute; reflexivity|].
    split; [etrans; [exact Ho3|]; vm_compute; reflexivity|].
    etrans; [exact Hb3|]; vm_compute; reflexivity.
Defined.

End Witness.

(** ** The further theorems at concrete inputs *)

Module Witness2.

Lemma row_field_lookup_witness :
  ∃ row, Coco.lower_row (Csv.dict_row Fixture2.mixed_header Fixture2.short_row) = Ok row ∧
         Dict.get row (Py.lower "Width") = Some (Fixture2.short_row !! 3%nat).
Proof.
  apply (RowLookup.row_field_lookup Fixture2.mixed_header Fixture2.short_row 3 "Width").
  - vm_compute. repeat (constructor; [set_solver|]). constructor.
  - vm_compute. lia.
  - reflexivity.
Defined.

Lemma parse_csv_no_data_witness :
  Coco._parse_csv_boxes (F := Z) Fixture2.blank_csv_tree "oranges/csv/a.csv" = Ok [].
Proof.
  apply ParseFacts.parse_csv_no_data. right. eexists. split; [reflexivity|].
  vm_compute. repeat constructor.
Defined.

Lemma merge_keeps_fields_witness :
  map Merged.image_fields (fst (fst Fixture2.merged))
    = concat (map (fun '(e, _) => map Merged.image_fields (fst (fst e)))
                  (zip [Fixture2.oranges_all; Fixture2.backgrounds_all]
                       ["oranges"; "backgrounds"])) ∧
  map Merged.annotation_fields (snd (fst Fixture2.merged))
    = concat (map (fun '(e, _) => map Merged.annotation_fields (snd (fst e)))
                  (zip [Fixture2.oranges_all; Fixture2.backgrounds_all]
                       ["oranges"; "backgrounds"])).
Proof.
  apply (MergeKeys.merge_keeps_fields _ _ _ _ (snd Fixture2.merged)).
  vm_compute. reflexivity.
Defined.

Lemma merge_category_ids_witness :
  map Coco.ann_category_id (snd (fst Fixture2.merged))
    = concat (imap (fun i '(e, _) => replicate (length (snd (fst e))) (1 + Z.of_nat i))
                   (zip [Fixture2.oranges_all; Fixture2.backgrounds_all]
                        ["oranges"; "backgrounds"])).
Proof.
  apply (MergeKeys.merge_category_ids _ _ (fst (fst Fixture2.merged)) _ (snd Fixture2.merged)).
  - repeat (constructor; [set_solver|]). constructor.
  - vm_compute. reflexivity.
Defined.

Lemma merge_numbering_witness :
  map Coco.img_id (fst (fst Fixture2.merged))
    = seqZ 1 (Z.of_nat (length (fst (fst Fixture2.merged)))) ∧
  map Coco.ann_id (snd (fst Fixture2.merged))
    = seqZ 1 (Z.of_nat (length (snd (fst Fixture2.merged)))) ∧
  Forall (fun a => Coco.ann_image_id a ∈ map Coco.img_id (fst (fst Fixture2.merged)))
         (snd (fst Fixture2.merged)) ∧
  map Coco.cat_id (snd Fixture2.merged) = seqZ 1 (Z.of_nat (length ["oranges"; "backgrounds"])) ∧
  map Coco.cat_name (snd Fixture2.merged)
    = map Coco.category_singular ["oranges"; "backgrounds"].
Proof.
  apply (MergeFacts.merge_numbering [Fixture2.oranges_all; Fixture2.backgrounds_all]).
  vm_compute. reflexivity.
Defined.

Lemma fallback_stems_by_name_witness :
  ∃ stems : gset string,
    Coco.image_stems Fixture.dataset "data/oranges" "train" = Ok stems ∧
    ∀ stem, stem ∈ stems ↔
            ∃ n, Coco.image_entry Fixture.dataset ("data/oranges" // "images") n ∧
                 stem = Path.stem_of_name n.
Proof.
  apply (CocoFacts.fallback_stems_by_name Fixture.dataset "data/oranges" "train").
  left. vm_compute. reflexivity.
Defined.

End Witness2.
